(** * Healthcare dashboard: live metric synchronisation and presentation

    A shallow embedding of the browser-side modules of the dashboard
    ([api-client.js] and [charts.js]) together with the properties that
    the design document states about them.

    JavaScript numbers are IEEE 754 binary64 values and are modelled by
    Rocq's primitive floats; the page, the console, the timers and the
    chart objects form an explicit world that every operation threads
    through a state-and-exception monad. *)

From Stdlib Require Import ZArith Floats DecimalString.
From stdpp Require Import base strings list gmap.

Set Warnings "-inexact-float,-register-all".

Open Scope string_scope.

(** ** JavaScript values *)

Module JS.

(** Values that can come out of [response.json()], plus [undefined],
    which appears as soon as a missing property is read. *)
Inductive Value : Type :=
  | Undefined
  | Null
  | Bool (b : bool)
  | Num (x : float)
  | Str (s : string)
  | Arr (items : list Value)
  | Obj (props : list (string * Value)).

(** The errors that travel through [throw] in the two modules. *)
Inductive Error : Type :=
  | NetworkError                              (* fetch() itself rejected *)
  | ApiRequestFailed (status : nat) (statusText : string)
  | SyntaxError                               (* response.json() rejected *)
  | TypeError                                 (* property of null, call of a non-function *)
  | CanvasInUse (canvasId : string).          (* thrown by the chart library *)

Definition typeof (v : Value) : string :=
  match v with
  | Undefined => "undefined"
  | Null => "object"
  | Bool _ => "boolean"
  | Num _ => "number"
  | Str _ => "string"
  | Arr _ => "object"
  | Obj _ => "object"
  end.

(** ToBoolean. *)
Definition truthy (v : Value) : bool :=
  match v with
  | Undefined | Null => false
  | Bool b => b
  | Num x => negb (PrimFloat.is_zero x || PrimFloat.is_nan x)
  | Str s => negb (String.eqb s "")
  | Arr _ | Obj _ => true
  end.

(** Own properties of an object literal, kept in insertion order. *)
Fixpoint obj_get (k : string) (props : list (string * Value)) : Value :=
  match props with
  | [] => Undefined
  | (k', v) :: rest => if String.eqb k k' then v else obj_get k rest
  end.

Fixpoint obj_set (k : string) (v : Value) (props : list (string * Value))
  : list (string * Value) :=
  match props with
  | [] => [(k, v)]
  | (k', v') :: rest =>
      if String.eqb k k' then (k, v) :: rest else (k', v') :: obj_set k v rest
  end.

Definition nat_to_string (n : nat) : string :=
  NilZero.string_of_uint (Nat.to_uint n).

Definition Z_to_string (n : Z) : string :=
  NilZero.string_of_uint (N.to_uint (Z.to_N n)).

(** ** Number.prototype.toFixed *)

(** [round_half_up m e f] is the integer [n] for which [n / 10^f] is
    closest to [m * 2^e], the larger one when two are equally close. *)
Definition round_half_up (m : positive) (e : Z) (f : nat) : Z :=
  let scaled := (Z.pos m * 10 ^ Z.of_nat f)%Z in
  if (0 <=? e)%Z then (scaled * 2 ^ e)%Z
  else ((2 * scaled + 2 ^ (- e)) / 2 ^ (1 - e))%Z.

(** Is [m * 2^e >= 10^21] ? *)
Definition at_least_1e21 (m : positive) (e : Z) : bool :=
  if (0 <=? e)%Z then (10 ^ 21 <=? Z.pos m * 2 ^ e)%Z
  else (10 ^ 21 * 2 ^ (- e) <=? Z.pos m)%Z.

Fixpoint zeros (n : nat) : string :=
  match n with
  | O => ""
  | S n' => "0" ++ zeros n'
  end.

(** Insert the decimal point [f] digits from the right, padding with
    zeros on the left when there are too few digits. *)
Definition place_point (digits : string) (f : nat) : string :=
  match f with
  | O => digits
  | S _ =>
      let k := String.length digits in
      let padded := if Nat.leb k f then zeros (f + 1 - k) ++ digits else digits in
      let k' := String.length padded in
      String.substring 0 (k' - f) padded ++ "." ++ String.substring (k' - f) f padded
  end.

(** What the JavaScript engine and the chart library provide and the
    two modules rely on without defining it: the shortest round-trip
    printing of a number, its locale-dependent printing, the parsing of
    a string as a number, and whether the chart constructor refuses a
    canvas that still carries a live chart. *)
Class Runtime := {
  Number_toString : float -> string;
  Number_toLocaleString : float -> string;
  StringToNumber : string -> float;
  canvas_reuse_throws : bool
}.

Section Conversions.
Context `{Runtime}.

(** [x.toFixed(f)]. *)
Definition toFixed (x : float) (f : nat) : string :=
  match Prim2SF x with
  | S754_zero _ => place_point "0" f
  | S754_infinity _ | S754_nan => Number_toString x
  | S754_finite s m e =>
      let sign := if s then "-" else "" in
      if at_least_1e21 m e then sign ++ Number_toString (PrimFloat.abs x)
      else sign ++ place_point (Z_to_string (round_half_up m e f)) f
  end.

(** ToString on the values above ([Array.prototype.join] prints [null]
    and [undefined] items as the empty string). *)
Fixpoint ToString (v : Value) : string :=
  match v with
  | Undefined => "undefined"
  | Null => "null"
  | Bool true => "true"
  | Bool false => "false"
  | Num x => Number_toString x
  | Str s => s
  | Arr items =>
      (fix join (l : list Value) : string :=
         match l with
         | [] => ""
         | i :: rest =>
             let here := match i with
                         | Undefined | Null => ""
                         | _ => ToString i
                         end in
             match rest with
             | [] => here
             | _ :: _ => here ++ "," ++ join rest
             end
         end) items
  | Obj _ => "[object Object]"
  end.

Definition ToNumber (v : Value) : float :=
  match v with
  | Undefined => PrimFloat.nan
  | Null => 0%float
  | Bool true => 1%float
  | Bool false => 0%float
  | Num x => x
  | Str s => StringToNumber s
  | Arr _ | Obj _ => StringToNumber (ToString v)
  end.

(** ToPrimitive: arrays and objects become their string form. *)
Definition ToPrimitive (v : Value) : Value :=
  match v with
  | Arr _ | Obj _ => Str (ToString v)
  | _ => v
  end.

(** The binary [+]: concatenation as soon as one side is a string. *)
Definition add (a b : Value) : Value :=
  match ToPrimitive a, ToPrimitive b with
  | Str s, pb => Str (s ++ ToString pb)
  | pa, Str s => Str (ToString pa ++ s)
  | pa, pb => Num (ToNumber pa + ToNumber pb)
  end.

End Conversions.

(** Reading a property: a [TypeError] on [null] and [undefined], the
    own property on an object, [undefined] otherwise (none of the names
    the modules read is a built-in of strings, numbers or arrays). *)
Definition get_prop (v : Value) (k : string) : Error + Value :=
  match v with
  | Undefined | Null => inl TypeError
  | Obj props => inr (obj_get k props)
  | _ => inr Undefined
  end.

(** Reading [v[i]] for a numeric index. *)
Definition get_index (v : Value) (i : nat) : Error + Value :=
  match v with
  | Undefined | Null => inl TypeError
  | Arr items => inr (default Undefined (items !! i))
  | Obj props => inr (obj_get (nat_to_string i) props)
  | Str s => inr (match String.get i s with
                  | Some c => Str (String c "")
                  | None => Undefined
                  end)
  | _ => inr Undefined
  end.

End JS.

Import JS.

(** ** The world the scripts run in *)

Inductive Level := LevelLog | LevelWarn | LevelError.

Inductive LogArg :=
  | ArgValue (v : Value)
  | ArgError (e : Error).

(** One call of [console.log], [console.warn] or [console.error]. *)
Record LogEntry := mkLogEntry {
  level : Level;
  message : string;
  extra : list LogArg
}.

(** An element of the page: whether it is a canvas, and the last value
    assigned to its [innerHTML]. *)
Record Element := mkElement {
  isCanvas : bool;
  innerHTML : Value
}.

Inductive ChartType := line | doughnut | bar.

(** The tooltip label callbacks installed by the chart configurations. *)
Inductive TooltipLabel :=
  | LabelDefault
  | LabelShareOfTotal
  | LabelUptime
  | LabelResources.

Record Axis := mkAxis {
  beginAtZero : bool;
  max : option float;
  title : string
}.

(** The part of a chart configuration that is not styling. *)
Record Options := mkOptions {
  tooltipLabel : TooltipLabel;
  scaleY : option Axis;
  scaleX : option Axis
}.

(** A chart object of the chart library. [datasets] are the objects of
    [chart.data.datasets], [labels] is [chart.data.labels]. *)
Record Chart := mkChart {
  canvas : string;
  type : ChartType;
  labels : Value;
  datasets : list (list (string * Value));
  options : Options;
  destroyed : bool
}.

(** What [setInterval] was asked to run. *)
Inductive Callback := RunRefreshAllMetrics | RunUpdateAllCharts.

Record World := mkWorld {
  document : gmap string Element;
  console : list LogEntry;          (* oldest entry first *)
  chartHeap : list Chart;           (* a chart handle is an index here *)
  timers : gmap positive (Callback * float);
  nextTimer : positive
}.

(** ** Computations: state, and completion by value or by throw *)

Inductive Completion (A : Type) :=
  | Normal (a : A)
  | Throw (e : Error).
Arguments Normal {A} a.
Arguments Throw {A} e.

Definition M (A : Type) : Type := World -> Completion A * World.

Definition ret {A} (a : A) : M A := fun w => (Normal a, w).
Definition throw {A} (e : Error) : M A := fun w => (Throw e, w).

Definition bind {A B} (m : M A) (k : A -> M B) : M B :=
  fun w =>
    match m w with
    | (Normal a, w') => k a w'
    | (Throw e, w') => (Throw e, w')
    end.

(** [try { body } catch (error) { handler }]: the effects of [body] up
    to the throw stay. *)
Definition try_catch {A} (body : M A) (handler : Error -> M A) : M A :=
  fun w =>
    match body w with
    | (Normal a, w') => (Normal a, w')
    | (Throw e, w') => handler e w'
    end.

Definition lift {A} (r : Error + A) : M A :=
  match r with
  | inl e => throw e
  | inr a => ret a
  end.

Declare Scope js_scope.
Delimit Scope js_scope with js.
Notation "x <- m ; k" := (bind m (fun x => k))
  (at level 100, m at next level, right associativity) : js_scope.
Notation "m ;; k" := (bind m (fun _ => k))
  (at level 100, right associativity) : js_scope.
Open Scope js_scope.

Definition emit (l : Level) (msg : string) (args : list LogArg) : M unit :=
  fun w =>
    (Normal tt,
     mkWorld (document w) (console w ++ [mkLogEntry l msg args])
             (chartHeap w) (timers w) (nextTimer w)).

Definition console_log := emit LevelLog.
Definition console_warn := emit LevelWarn.
Definition console_error := emit LevelError.

Definition getElementById (id : string) : M (option Element) :=
  fun w => (Normal (document w !! id), w).

(** [element.innerHTML = content] for the element with this id. *)
Definition set_innerHTML (id : string) (content : Value) : M unit :=
  fun w =>
    (Normal tt,
     mkWorld (alter (fun el => mkElement (isCanvas el) content) id (document w))
             (console w) (chartHeap w) (timers w) (nextTimer w)).

(** [v.k], throwing as JavaScript does. *)
Definition prop (v : Value) (k : string) : M Value := lift (get_prop v k).

Definition setInterval (cb : Callback) (ms : float) : M positive :=
  fun w =>
    (Normal (nextTimer w),
     mkWorld (document w) (console w) (chartHeap w)
             (<[nextTimer w := (cb, ms)]> (timers w)) (Pos.succ (nextTimer w))).

Definition clearInterval (id : positive) : M unit :=
  fun w =>
    (Normal tt,
     mkWorld (document w) (console w) (chartHeap w)
             (delete id (timers w)) (nextTimer w)).

(** ** The remote metrics service, as seen through [fetch] *)

Record Response := mkResponse {
  status : nat;
  statusText : string;
  text : string;                (* the raw body *)
  json : option Value           (* the body parsed as JSON, when it is JSON *)
}.

(** [response.ok]. *)
Definition ok (r : Response) : bool :=
  Nat.leb 200 (status r) && Nat.leb (status r) 299.

Inductive FetchOutcome :=
  | Rejected                    (* unreachable, aborted *)
  | Responded (r : Response).

Record Request := mkRequest {
  url : string;
  method : string;
  body : option string
}.

Definition Network := Request -> FetchOutcome.

(** The [options] argument of [fetchAPI]. *)
Record FetchOptions := mkFetchOptions {
  optMethod : option string;
  optBody : option string
}.

Definition noOptions : FetchOptions := mkFetchOptions None None.

(** ** api-client.js *)

Module HealthcareAPIClient.

Record t := mk { baseURL : string }.

Definition health := "/api/health".
Definition fhir_metrics := "/api/fhir/metrics".
Definition hl7_metrics := "/api/hl7/metrics".
Definition epic_metrics := "/api/epic/metrics".
Definition cerner_metrics := "/api/cerner/metrics".
Definition azure_metrics := "/api/azure/metrics".
Definition analytics_responseTimes := "/api/analytics/response-times".
Definition analytics_messageVolume := "/api/analytics/message-volume".
Definition analytics_systemHealth := "/api/analytics/system-health".

Definition new (baseURL : string) : M t :=
  console_log "HealthcareAPIClient initialized with baseURL:" [ArgValue (Str baseURL)];;
  ret (mk baseURL).

Section Methods.
Context (net : Network) (this : t).

(** Generic fetch method with error handling and logging. *)
Definition fetchAPI (endpoint : string) (options : FetchOptions) : M Value :=
  let url := baseURL this ++ endpoint in
  let shown := match optMethod options with
               | Some m => if String.eqb m "" then "GET" else m
               | None => "GET"
               end in
  console_log ("API Request: " ++ shown ++ " " ++ url) [];;
  let finalMethod := default "GET" (optMethod options) in
  try_catch
    (match net (mkRequest url finalMethod (optBody options)) with
     | Rejected => throw NetworkError
     | Responded response =>
         if negb (ok response) then
           console_error
             ("API Error " ++ nat_to_string (status response) ++ ": " ++ text response) [];;
           throw (ApiRequestFailed (status response) (statusText response))
         else
           match json response with
           | None => throw SyntaxError
           | Some data =>
               console_log ("API Response: " ++ endpoint) [ArgValue data];;
               ret data
           end
     end)
    (fun error =>
       console_error ("API Client Error for " ++ endpoint ++ ":") [ArgError error];;
       throw error).

Definition checkHealth : M Value :=
  console_log "Checking API health..." [];;
  fetchAPI health noOptions.

Definition getFHIRMetrics : M Value :=
  console_log "Fetching FHIR metrics..." [];;
  fetchAPI fhir_metrics noOptions.

Definition getHL7Metrics : M Value :=
  console_log "Fetching HL7 metrics..." [];;
  fetchAPI hl7_metrics noOptions.

Definition getEpicMetrics : M Value :=
  console_log "Fetching Epic metrics..." [];;
  fetchAPI epic_metrics noOptions.

Definition getCernerMetrics : M Value :=
  console_log "Fetching Cerner metrics..." [];;
  fetchAPI cerner_metrics noOptions.

Definition getAzureMetrics : M Value :=
  console_log "Fetching Azure metrics..." [];;
  fetchAPI azure_metrics noOptions.

Definition getResponseTimeAnalytics : M Value :=
  console_log "Fetching response time analytics..." [];;
  fetchAPI analytics_responseTimes noOptions.

Definition getMessageVolumeAnalytics : M Value :=
  console_log "Fetching message volume analytics..." [];;
  fetchAPI analytics_messageVolume noOptions.

Definition getSystemHealthAnalytics : M Value :=
  console_log "Fetching system health analytics..." [];;
  fetchAPI analytics_systemHealth noOptions.

End Methods.
End HealthcareAPIClient.

(** *** UI helper functions *)

Definition hideLoading (elementId : string) (content : Value) : M unit :=
  element <- getElementById elementId;
  match element with
  | Some _ =>
      set_innerHTML elementId content;;
      console_log ("Updated element " ++ elementId ++ " with content:") [ArgValue content]
  | None => ret tt
  end.

Section Formatting.
Context `{Runtime}.

Definition formatNumber (number : Value) : Value :=
  match number with
  | Num x => Str (Number_toLocaleString x)
  | _ => number
  end.

Definition formatPercentage (number : Value) : Value :=
  match number with
  | Num x => Str (toFixed x 1 ++ "%")
  | _ => number
  end.

(** A template literal [`${v}suffix`]. *)
Definition with_suffix (v : Value) (suffix : string) : Value :=
  Str (ToString v ++ suffix).

End Formatting.

(** *** Auto-refresh of the metric widgets *)

Module MetricsRefreshManager.

Record t := mk {
  intervalMs : float;
  intervalId : option positive     (* [None] is [null]; timer ids are never 0 *)
}.

Definition new (intervalMs : float) : M t :=
  console_log "MetricsRefreshManager initialized with interval:" [ArgValue (Num intervalMs)];;
  ret (mk intervalMs None).

(** 30 seconds default. *)
Definition default_intervalMs : float := 30000.

Section Methods.
Context `{Runtime} (net : Network) (apiClient : HealthcareAPIClient.t).

Definition refreshAllMetrics : M unit :=
  console_log "Refreshing all metrics..." [];;
  try_catch
    ((* Refresh FHIR metrics *)
     fhirMetrics <- HealthcareAPIClient.getFHIRMetrics net apiClient;
     active_patients <- prop fhirMetrics "active_patients";
     hideLoading "fhirPatients" (formatNumber active_patients);;
     requests_per_minute <- prop fhirMetrics "requests_per_minute";
     hideLoading "fhirRequests" (formatNumber requests_per_minute);;
     uptime_percentage <- prop fhirMetrics "uptime_percentage";
     hideLoading "fhirUptime" (formatPercentage uptime_percentage);;
     (* Refresh HL7 metrics *)
     hl7Metrics <- HealthcareAPIClient.getHL7Metrics net apiClient;
     daily_message_count <- prop hl7Metrics "daily_message_count";
     hideLoading "hl7Messages" (formatNumber daily_message_count);;
     most_common_type <- prop hl7Metrics "most_common_type";
     hideLoading "hl7MostCommon" most_common_type;;
     avg_processing_time <- prop hl7Metrics "avg_processing_time";
     hideLoading "hl7ProcessingTime" (with_suffix avg_processing_time "s");;
     (* Refresh Epic metrics *)
     epicMetrics <- HealthcareAPIClient.getEpicMetrics net apiClient;
     provider_organizations <- prop epicMetrics "provider_organizations";
     hideLoading "epicProviderOrgs" (formatNumber provider_organizations);;
     patient_records <- prop epicMetrics "patient_records";
     hideLoading "epicPatientRecords" patient_records;;
     response_time_ms <- prop epicMetrics "response_time_ms";
     hideLoading "epicResponseTime" (with_suffix response_time_ms "ms");;
     (* Refresh Azure metrics *)
     azureMetrics <- HealthcareAPIClient.getAzureMetrics net apiClient;
     sla_compliance <- prop azureMetrics "sla_compliance";
     hideLoading "azureSLA" (formatPercentage sla_compliance);;
     data_processed_tb <- prop azureMetrics "data_processed_tb";
     hideLoading "azureDataProcessed" (with_suffix data_processed_tb "TB");;
     api_calls_per_second <- prop azureMetrics "api_calls_per_second";
     hideLoading "azureApiCalls" (formatNumber api_calls_per_second);;
     (* Update alert elements *)
     response_time_ms' <- prop epicMetrics "response_time_ms";
     hideLoading "epicAlertTime" (with_suffix response_time_ms' "ms");;
     queue_depth <- prop hl7Metrics "queue_depth";
     hideLoading "hl7QueueDepth" queue_depth;;
     active_patients' <- prop fhirMetrics "active_patients";
     hideLoading "auditLogsToday" (formatNumber active_patients');;
     console_log "All metrics refreshed successfully" [])
    (fun error => console_error "Error refreshing metrics:" [ArgError error]).

End Methods.

Definition start (this : t) : M t :=
  match intervalId this with
  | Some _ =>
      console_log "MetricsRefreshManager already running" [];;
      ret this
  | None =>
      console_log "Starting automatic metrics refresh" [];;
      id <- setInterval RunRefreshAllMetrics (intervalMs this);
      ret (mk (intervalMs this) (Some id))
  end.

Definition stop (this : t) : M t :=
  match intervalId this with
  | Some id =>
      clearInterval id;;
      console_log "Stopped automatic metrics refresh" [];;
      ret (mk (intervalMs this) None)
  | None => ret this
  end.

End MetricsRefreshManager.

(** ** The chart library, as far as charts.js uses it *)

(** A chart is live on a canvas from its construction to its [destroy]. *)
Definition live_on (canvasId : string) (c : Chart) : bool :=
  String.eqb (canvas c) canvasId && negb (destroyed c).

Definition with_heap (h : list Chart) (w : World) : World :=
  mkWorld (document w) (console w) h (timers w) (nextTimer w).

(** [new Chart(ctx, config)]: the new chart is appended to the heap and
    its index is the handle. When the library guards canvases, a canvas
    that still carries a live chart makes the constructor throw. *)
Definition new_Chart `{Runtime} (canvasId : string) (ty : ChartType) (lbls : Value)
    (dsets : list (list (string * Value))) (opts : Options) : M nat :=
  fun w =>
    if canvas_reuse_throws && existsb (live_on canvasId) (chartHeap w) then
      (Throw (CanvasInUse canvasId), w)
    else
      (Normal (length (chartHeap w)),
       with_heap (chartHeap w ++ [mkChart canvasId ty lbls dsets opts false]) w).

Definition mark_destroyed (c : Chart) : Chart :=
  mkChart (canvas c) (type c) (labels c) (datasets c) (options c) true.

(** [chart.destroy()]. *)
Definition Chart_destroy (h : nat) : M unit :=
  fun w => (Normal tt, with_heap (alter mark_destroyed h (chartHeap w)) w).

(** [chart.update('none')] and [chart.resize()] repaint the canvas from
    the chart's current data; the chart object itself is not changed. *)
Definition Chart_update (h : nat) : M unit := ret tt.
Definition Chart_resize (h : nat) : M unit := ret tt.

(** [chart.data.datasets[i].data = v]. *)
Definition set_dataset_data (h i : nat) (v : Value) : M unit :=
  fun w =>
    (Normal tt,
     with_heap (alter (fun c => mkChart (canvas c) (type c) (labels c)
                                        (alter (obj_set "data" v) i (datasets c))
                                        (options c) (destroyed c)) h (chartHeap w)) w).

Definition getChart (h : nat) : M (option Chart) :=
  fun w => (Normal (chartHeap w !! h), w).

(** [canvas.getContext('2d')]: only a canvas has the method. *)
Definition getContext2d (el : Element) : M unit :=
  if isCanvas el then ret tt else throw TypeError.

(** *** Math *)

Definition float_of_Z (z : Z) : float :=
  if (z <? 0)%Z then (- PrimFloat.of_uint63 (Uint63.of_Z (- z)))%float
  else PrimFloat.of_uint63 (Uint63.of_Z z).

Definition Math_floor (x : float) : float :=
  match Prim2SF x with
  | S754_finite s m e =>
      if (0 <=? e)%Z then x
      else if s then float_of_Z (- ((Z.pos m + 2 ^ (- e) - 1) / 2 ^ (- e)))
      else float_of_Z (Z.pos m / 2 ^ (- e))
  | _ => x
  end.

Definition Math_max (a b : float) : float :=
  if PrimFloat.is_nan a || PrimFloat.is_nan b then PrimFloat.nan
  else if PrimFloat.ltb a b then b
  else if PrimFloat.ltb b a then a
  else if PrimFloat.is_zero a && PrimFloat.get_sign a then b
  else a.

(** Own enumerable properties, as the spread [{...v}] copies them. *)
Fixpoint indexed (i : nat) (items : list Value) : list (string * Value) :=
  match items with
  | [] => []
  | v :: rest => (nat_to_string i, v) :: indexed (S i) rest
  end.

Fixpoint chars (s : string) : list Value :=
  match s with
  | EmptyString => []
  | String c rest => Str (String c EmptyString) :: chars rest
  end.

Definition own_props (v : Value) : list (string * Value) :=
  match v with
  | Obj props => props
  | Arr items => indexed 0 items
  | Str s => indexed 0 (chars s)
  | _ => []
  end.

(** An object literal [{...base, k1: v1, k2: v2, ...}]. *)
Definition literal (base : list (string * Value)) (fields : list (string * Value))
  : list (string * Value) :=
  foldl (fun o kv => obj_set kv.1 kv.2 o) base fields.

Fixpoint mapM {A B} (f : A -> M B) (l : list A) : M (list B) :=
  match l with
  | [] => ret []
  | a :: rest => b <- f a; bs <- mapM f rest; ret (b :: bs)
  end.

Fixpoint forEach {A} (l : list A) (f : A -> M unit) : M unit :=
  match l with
  | [] => ret tt
  | a :: rest => f a;; forEach rest f
  end.

(** ** charts.js *)

(** What a slot of the chart registry [this.charts] can hold. The
    module itself only ever stores charts; the other cases are the
    values its guards are written against. *)
Inductive Entry :=
  | EUndefined
  | ENull
  | EObject                 (* an object with no chart methods or data *)
  | EChart (handle : nat).

Definition entry_truthy (e : Entry) : bool :=
  match e with
  | EUndefined | ENull => false
  | EObject | EChart _ => true
  end.

(** *** Tooltip label callbacks *)

(** The [context] the chart library hands to a label callback. *)
Record TooltipContext := mkContext {
  ctx_label : Value;
  ctx_parsed : Value;
  ctx_dataset : list (string * Value)
}.

Section Tooltips.
Context `{Runtime}.

(** Message volume (doughnut). *)
Definition label_shareOfTotal (context : TooltipContext) : Error + string :=
  let label := if truthy (ctx_label context) then ctx_label context else Str "" in
  let value := ctx_parsed context in
  match obj_get "data" (ctx_dataset context) with
  | Arr items =>
      let total := foldl JS.add (Num 0) items in
      let percentage := toFixed (ToNumber value / ToNumber total * 100) 1 in
      inr (ToString label ++ ": " ++ ToString value ++ "% ("
             ++ percentage ++ "% of total)")
  | _ => inl TypeError
  end.

(** [context.parsed.y.toFixed(1)] and [.toLocaleString()] need a number. *)
Definition parsed_y (context : TooltipContext) : Error + float :=
  match get_prop (ctx_parsed context) "y" with
  | inl e => inl e
  | inr (Num y) => inr y
  | inr _ => inl TypeError
  end.

(** System health (bar). *)
Definition label_uptime (context : TooltipContext) : Error + string :=
  match parsed_y context with
  | inl e => inl e
  | inr y => inr ("Uptime: " ++ toFixed y 1 ++ "%")
  end.

(** FHIR trends (bar). *)
Definition label_resources (context : TooltipContext) : Error + string :=
  match parsed_y context with
  | inl e => inl e
  | inr y => inr ("Resources: " ++ Number_toLocaleString y)
  end.

(** The text of a tooltip line under a chart's configuration; the
    library's own default is not modelled. *)
Definition tooltip_text (opts : Options) (context : TooltipContext)
  : option (Error + string) :=
  match tooltipLabel opts with
  | LabelDefault => None
  | LabelShareOfTotal => Some (label_shareOfTotal context)
  | LabelUptime => Some (label_uptime context)
  | LabelResources => Some (label_resources context)
  end.

(** The context the library builds for item [i] of the first dataset:
    the label of the item, its parsed value (a number for a doughnut,
    an [{x, y}] pair of numbers for a bar or a line) and the dataset. *)
Definition tooltipContext (c : Chart) (i : nat) : option TooltipContext :=
  match datasets c with
  | dataset :: _ =>
      match obj_get "data" dataset with
      | Arr items =>
          match items !! i with
          | Some raw =>
              let label := match get_index (labels c) i with
                           | inr v => v
                           | inl _ => Undefined
                           end in
              let parsed := match type c with
                            | doughnut => Num (ToNumber raw)
                            | _ => Obj [("x", Num (float_of_Z (Z.of_nat i)));
                                        ("y", Num (ToNumber raw))]
                            end in
              Some (mkContext label parsed dataset)
          | None => None
          end
      | _ => None
      end
  | [] => None
  end.

End Tooltips.

Module HealthcareChartsManager.

Record t := mk {
  charts : gmap string Entry;
  updateInterval : option positive
}.

Definition new : M t :=
  console_log "HealthcareChartsManager initialized" [];;
  ret (mk ∅ None).

(** [this.charts.name]: a missing key reads as [undefined]. *)
Definition chart_of (this : t) (name : string) : Entry :=
  default EUndefined (charts this !! name).

Definition axis (zero : bool) (top : option float) (text : string) : option Axis :=
  Some (mkAxis zero top text).

Definition responseTime_options : Options :=
  mkOptions LabelDefault
            (axis true None "Response Time (ms)")
            (axis false None "Time of Day").

Definition messageVolume_options : Options :=
  mkOptions LabelShareOfTotal None None.

Definition healthStatus_options : Options :=
  mkOptions LabelUptime
            (axis true (Some 100%float) "Uptime Percentage")
            (axis false None "Healthcare Systems").

Definition fhirTrends_options : Options :=
  mkOptions LabelResources
            (axis true None "Number of Resources")
            (axis false None "FHIR Resource Types").

Definition baseData : list float := [1247; 892; 634; 445; 321]%float.

Definition fhirData : list (string * Value) :=
  [("labels", Arr [Str "Patient"; Str "Observation"; Str "Encounter";
                   Str "Medication"; Str "DiagnosticReport"]);
   ("data", Arr (Num <$> baseData));
   ("backgroundColor", Arr [Str "#0078d4"; Str "#059669"; Str "#e67e22";
                            Str "#6b46c1"; Str "#f59e0b"])].

Section Methods.
Context `{Runtime} (net : Network) (apiClient : HealthcareAPIClient.t).

(** The callback of [data.datasets.map] in the response time chart. *)
Definition styleDataset (dataset : Value) : M (list (string * Value)) :=
  borderColor <- prop dataset "borderColor";
  ret (literal (own_props dataset)
         [("backgroundColor", JS.add borderColor (Str "20"));
          ("borderWidth", Num 3);
          ("fill", Bool true);
          ("tension", Num 0.4);
          ("pointBackgroundColor", borderColor);
          ("pointBorderColor", Str "#ffffff");
          ("pointBorderWidth", Num 2);
          ("pointRadius", Num 4)]).

(** [v.map(f)]: only an array has the method. *)
Definition Array_map {B} (v : Value) (f : Value -> M B) : M (list B) :=
  match v with
  | Arr items => mapM f items
  | _ => throw TypeError
  end.

(** Create API Response Times Chart. *)
Definition createResponseTimeChart (this : t) : M t :=
  canvas <- getElementById "responseTimeChart";
  match canvas with
  | None =>
      console_warn "Response time chart canvas not found" [];;
      ret this
  | Some canvas =>
      console_log "Creating response time chart..." [];;
      try_catch
        (data <- HealthcareAPIClient.getResponseTimeAnalytics net apiClient;
         getContext2d canvas;;
         lbls <- prop data "labels";
         raw <- prop data "datasets";
         dsets <- Array_map raw styleDataset;
         h <- new_Chart "responseTimeChart" line lbls dsets responseTime_options;
         console_log "Response time chart created successfully" [];;
         ret (mk (<["responseTime" := EChart h]> (charts this)) (updateInterval this)))
        (fun error =>
           console_error "Error creating response time chart:" [ArgError error];;
           ret this)
  end.

(** Create HL7 Message Volume Chart. *)
Definition createMessageVolumeChart (this : t) : M t :=
  canvas <- getElementById "messageVolumeChart";
  match canvas with
  | None =>
      console_warn "Message volume chart canvas not found" [];;
      ret this
  | Some canvas =>
      console_log "Creating message volume chart..." [];;
      try_catch
        (data <- HealthcareAPIClient.getMessageVolumeAnalytics net apiClient;
         getContext2d canvas;;
         lbls <- prop data "labels";
         values <- prop data "data";
         backgroundColor <- prop data "backgroundColor";
         h <- new_Chart "messageVolumeChart" doughnut lbls
                [[("data", values);
                  ("backgroundColor", backgroundColor);
                  ("borderWidth", Num 4);
                  ("borderColor", Str "#ffffff");
                  ("hoverBorderWidth", Num 6);
                  ("hoverBorderColor", Str "#ffffff")]]
                messageVolume_options;
         console_log "Message volume chart created successfully" [];;
         ret (mk (<["messageVolume" := EChart h]> (charts this)) (updateInterval this)))
        (fun error =>
           console_error "Error creating message volume chart:" [ArgError error];;
           ret this)
  end.

(** Create Healthcare System Health Status Chart. *)
Definition createHealthStatusChart (this : t) : M t :=
  canvas <- getElementById "healthStatusChart";
  match canvas with
  | None =>
      console_warn "Health status chart canvas not found" [];;
      ret this
  | Some canvas =>
      console_log "Creating health status chart..." [];;
      try_catch
        (data <- HealthcareAPIClient.getSystemHealthAnalytics net apiClient;
         getContext2d canvas;;
         lbls <- prop data "labels";
         values <- prop data "data";
         backgroundColor <- prop data "backgroundColor";
         h <- new_Chart "healthStatusChart" bar lbls
                [[("label", Str "Uptime %");
                  ("data", values);
                  ("backgroundColor", backgroundColor);
                  ("borderRadius", Num 8);
                  ("borderSkipped", Bool false);
                  ("borderWidth", Num 1);
                  ("borderColor", Str "#ffffff")]]
                healthStatus_options;
         console_log "Health status chart created successfully" [];;
         ret (mk (<["healthStatus" := EChart h]> (charts this)) (updateInterval this)))
        (fun error =>
           console_error "Error creating health status chart:" [ArgError error];;
           ret this)
  end.

(** Create FHIR Resource Processing Trends Chart. *)
Definition createFHIRTrendsChart (this : t) : M t :=
  canvas <- getElementById "fhirTrendsChart";
  match canvas with
  | None =>
      console_warn "FHIR trends chart canvas not found" [];;
      ret this
  | Some canvas =>
      console_log "Creating FHIR trends chart..." [];;
      try_catch
        (getContext2d canvas;;
         h <- new_Chart "fhirTrendsChart" bar (obj_get "labels" fhirData)
                [[("label", Str "Resources Processed");
                  ("data", obj_get "data" fhirData);
                  ("backgroundColor", obj_get "backgroundColor" fhirData);
                  ("borderRadius", Num 6);
                  ("borderSkipped", Bool false);
                  ("borderWidth", Num 1);
                  ("borderColor", Str "#ffffff")]]
                fhirTrends_options;
         console_log "FHIR trends chart created successfully" [];;
         ret (mk (<["fhirTrends" := EChart h]> (charts this)) (updateInterval this)))
        (fun error =>
           console_error "Error creating FHIR trends chart:" [ArgError error];;
           ret this)
  end.

(** Start automatic chart updates. *)
Definition startAutoUpdate (this : t) : M t :=
  match updateInterval this with
  | Some _ =>
      console_log "Chart auto-update already running" [];;
      ret this
  | None =>
      console_log "Starting automatic chart updates" [];;
      id <- setInterval RunUpdateAllCharts 60000;   (* Update every minute *)
      ret (mk (charts this) (Some id))
  end.

(** Stop automatic chart updates. *)
Definition stopAutoUpdate (this : t) : M t :=
  match updateInterval this with
  | Some id =>
      clearInterval id;;
      console_log "Stopped automatic chart updates" [];;
      ret (mk (charts this) None)
  | None => ret this
  end.

(** Initialize all charts. *)
Definition initializeCharts (this : t) : M t :=
  console_log "Initializing healthcare charts..." [];;
  try_catch
    (this1 <- createResponseTimeChart this;
     this2 <- createMessageVolumeChart this1;
     this3 <- createHealthStatusChart this2;
     this4 <- createFHIRTrendsChart this3;
     console_log "All healthcare charts initialized successfully" [];;
     (* Start auto-update *)
     startAutoUpdate this4)
    (fun error =>
       console_error "Error initializing charts:" [ArgError error];;
       ret this).

(** [chart.data.datasets.forEach(...)] of the response time update:
    dataset [index] takes the data of the fetched dataset of the same
    index when there is one. *)
Definition copyDatasetData (h : nat) (responseData : Value) (index : nat) : M unit :=
  fetched <- prop responseData "datasets";
  item <- lift (get_index fetched index);
  if truthy item then
    d <- prop item "data";
    set_dataset_data h index d
  else ret tt.

(** [chart.data.datasets[0].data = v]. *)
Definition setFirstDatasetData (h : nat) (v : Value) : M unit :=
  c <- getChart h;
  match datasets <$> c with
  | Some (_ :: _) => set_dataset_data h 0 v
  | _ => throw TypeError
  end.

(** The simulated variation of the FHIR trends: the [k]-th call of
    [Math.random] in the update returns [random k]. *)
Definition variedData (random : nat -> float) : list float :=
  imap (fun k value =>
          let variation := Math_floor (random k * 100 - 50) in   (* +-50 variation *)
          Math_max 100 (value + variation))
       baseData.

(** Update all charts with new data. *)
Definition updateAllCharts (random : nat -> float) (this : t) : M t :=
  console_log "Updating all charts with new data..." [];;
  try_catch
    ((* Update response time chart *)
     match chart_of this "responseTime" with
     | EChart h =>
         responseData <- HealthcareAPIClient.getResponseTimeAnalytics net apiClient;
         c <- getChart h;
         match c with
         | Some c =>
             forEach (seq 0 (length (datasets c))) (copyDatasetData h responseData);;
             Chart_update h
         | None => throw TypeError
         end
     | EObject =>
         HealthcareAPIClient.getResponseTimeAnalytics net apiClient;;
         throw TypeError
     | EUndefined | ENull => ret tt
     end;;
     (* Update message volume chart *)
     match chart_of this "messageVolume" with
     | EChart h =>
         volumeData <- HealthcareAPIClient.getMessageVolumeAnalytics net apiClient;
         d <- prop volumeData "data";
         setFirstDatasetData h d;;
         Chart_update h
     | EObject =>
         HealthcareAPIClient.getMessageVolumeAnalytics net apiClient;;
         throw TypeError
     | EUndefined | ENull => ret tt
     end;;
     (* Update health status chart *)
     match chart_of this "healthStatus" with
     | EChart h =>
         healthData <- HealthcareAPIClient.getSystemHealthAnalytics net apiClient;
         d <- prop healthData "data";
         setFirstDatasetData h d;;
         Chart_update h
     | EObject =>
         HealthcareAPIClient.getSystemHealthAnalytics net apiClient;;
         throw TypeError
     | EUndefined | ENull => ret tt
     end;;
     (* Update FHIR trends chart (simulate data variation) *)
     match chart_of this "fhirTrends" with
     | EChart h =>
         setFirstDatasetData h (Arr (Num <$> variedData random));;
         Chart_update h
     | EObject => throw TypeError
     | EUndefined | ENull => ret tt
     end;;
     console_log "All charts updated successfully" [];;
     ret this)
    (fun error =>
       console_error "Error updating charts:" [ArgError error];;
       ret this).

End Methods.

(** [Object.values(this.charts)]. The registry is a finite map, so the
    values come in key order rather than insertion order; the callbacks
    below touch only the visited chart, so the order is not observable. *)
Definition values (this : t) : list Entry := (map_to_list (charts this)).*2.

(** Resize all charts. *)
Definition resizeCharts (this : t) : M unit :=
  console_log "Resizing all charts..." [];;
  forEach (values this) (fun chart =>
    match chart with
    | EChart h => Chart_resize h
    | _ => ret tt
    end).

(** Destroy all charts. *)
Definition destroyCharts (this : t) : M t :=
  console_log "Destroying all charts..." [];;
  forEach (values this) (fun chart =>
    match chart with
    | EChart h => Chart_destroy h      (* chart && typeof chart.destroy === 'function' *)
    | _ => ret tt
    end);;
  stopAutoUpdate (mk ∅ (updateInterval this)).

End HealthcareChartsManager.

(** ** The rest of api-client.js *)

(** The double quote, for markup. *)
Definition dquote : string := String (Ascii.ascii_of_nat 34) EmptyString.

Definition spinner : string :=
  "<span class=" ++ dquote ++ "loading-spinner" ++ dquote ++ "></span>".

Definition showLoading (elementId : string) : M unit :=
  element <- getElementById elementId;
  match element with
  | Some _ =>
      set_innerHTML elementId (Str spinner);;
      console_log ("Showing loading state for element: " ++ elementId) []
  | None => ret tt
  end.

(** The markup [showError] puts around a message. *)
Definition errorMarkup (message : string) : string :=
  "<span style=" ++ dquote ++ "color: var(--danger);" ++ dquote ++ ">Error: "
    ++ message ++ "</span>".

Definition showError `{Runtime} (elementId : string) (errorMessage : Value) : M unit :=
  element <- getElementById elementId;
  match element with
  | Some _ =>
      set_innerHTML elementId (Str (errorMarkup (ToString errorMessage)));;
      console_error ("Error displayed in element " ++ elementId ++ ":")
                    [ArgValue errorMessage]
  | None => ret tt
  end.

(** The methods of the client that send a [POST] without a body. *)
Module HealthcareAPIClientTests.

Definition epic_test := "/api/epic/test".
Definition cerner_test := "/api/cerner/test".

Section Methods.
Context (net : Network) (this : HealthcareAPIClient.t).

Definition testEpicConnection : M Value :=
  console_log "Testing Epic connection..." [];;
  HealthcareAPIClient.fetchAPI net this epic_test (mkFetchOptions (Some "POST") None).

Definition testCernerConnection : M Value :=
  console_log "Testing Cerner connection..." [];;
  HealthcareAPIClient.fetchAPI net this cerner_test (mkFetchOptions (Some "POST") None).

End Methods.
End HealthcareAPIClientTests.

(** *** The listeners of the page *)

Module APIClientPage.

(** The elements that show the error state. *)
Definition errorElements : list string :=
  ["fhirPatients"; "fhirRequests"; "fhirUptime";
   "hl7Messages"; "hl7MostCommon"; "hl7ProcessingTime";
   "epicProviderOrgs"; "epicPatientRecords"; "epicResponseTime";
   "azureSLA"; "azureDataProcessed"; "azureApiCalls"].

Section Listeners.
Context `{Runtime} (net : Network) (apiClient : HealthcareAPIClient.t).

(** Initialize API client functionality: the [DOMContentLoaded]
    listener. The manager is [window.metricsManager]; only [start]
    changes it, and nothing after [start] can throw, so the handler
    sees the manager as it was. *)
Definition onDOMContentLoaded (metricsManager : MetricsRefreshManager.t)
  : M MetricsRefreshManager.t :=
  console_log "Healthcare API Client initializing..." [];;
  try_catch
    ((* Check API health *)
     health <- HealthcareAPIClient.checkHealth net apiClient;
     console_log "API Health Check:" [ArgValue health];;
     (* Load initial metrics *)
     MetricsRefreshManager.refreshAllMetrics net apiClient;;
     (* Start auto-refresh *)
     started <- MetricsRefreshManager.start metricsManager;
     console_log "Healthcare API Client initialized successfully" [];;
     ret started)
    (fun error =>
       console_error "Failed to initialize Healthcare API Client:" [ArgError error];;
       (* Show error state in UI *)
       forEach errorElements (fun elementId =>
         showError elementId (Str "Connection failed"));;
       ret metricsManager).

End Listeners.

(** Cleanup on page unload; [None] is a page without
    [window.metricsManager]. *)
Definition onBeforeUnload (metricsManager : option MetricsRefreshManager.t)
  : M (option MetricsRefreshManager.t) :=
  after <- match metricsManager with
           | Some manager =>
               stopped <- MetricsRefreshManager.stop manager;
               ret (Some stopped)
           | None => ret None
           end;
  console_log "Healthcare API Client cleanup completed" [];;
  ret after.

End APIClientPage.

(** *** The listeners of charts.js *)

Module ChartsPage.

(** Handle window resize. *)
Definition onResize (chartsManager : option HealthcareChartsManager.t) : M unit :=
  match chartsManager with
  | Some manager => HealthcareChartsManager.resizeCharts manager
  | None => ret tt
  end.

(** Cleanup on page unload. *)
Definition onBeforeUnload (chartsManager : option HealthcareChartsManager.t)
  : M (option HealthcareChartsManager.t) :=
  after <- match chartsManager with
           | Some manager =>
               destroyed <- HealthcareChartsManager.destroyCharts manager;
               ret (Some destroyed)
           | None => ret None
           end;
  console_log "Charts module cleanup completed" [];;
  ret after.

End ChartsPage.

(** ** The global functions for UI interactions *)

(** A click handler works on the button it was fired from
    ([event.target]) and may open alert dialogs. The button is taken to
    be none of the elements the scripts address by id. *)
Record Button := mkButton {
  buttonHTML : Value;             (* [button.innerHTML] *)
  disabled : bool
}.

Record Browser := mkBrowser {
  target : Button;
  dialogs : list string;          (* the alerts shown, oldest first *)
  page : World
}.

Definition Act (A : Type) : Type := Browser -> Completion A * Browser.

Definition act_ret {A} (a : A) : Act A := fun b => (Normal a, b).

Definition act_bind {A B} (m : Act A) (k : A -> Act B) : Act B :=
  fun b =>
    match m b with
    | (Normal a, b') => k a b'
    | (Throw e, b') => (Throw e, b')
    end.

(** A computation on the page, run inside a click handler. *)
Definition on_page {A} (m : M A) : Act A :=
  fun b =>
    let (r, w') := m (page b) in
    (r, mkBrowser (target b) (dialogs b) w').

(** [try { body } catch (error) { handler } finally { final }]. *)
Definition try_catch_finally {A} (body : Act A) (handler : Error -> Act A)
    (final : Act unit) : Act A :=
  fun b =>
    let (r, b1) := match body b with
                   | (Normal a, b') => (Normal a, b')
                   | (Throw e, b') => handler e b'
                   end in
    match final b1 with
    | (Normal _, b2) => (r, b2)
    | (Throw e, b2) => (Throw e, b2)
    end.

Definition alert (text : string) : Act unit :=
  fun b => (Normal tt, mkBrowser (target b) (dialogs b ++ [text]) (page b)).

Definition get_buttonHTML : Act Value := fun b => (Normal (buttonHTML (target b)), b).

Definition set_buttonHTML (v : Value) : Act unit :=
  fun b => (Normal tt, mkBrowser (mkButton v (disabled (target b))) (dialogs b) (page b)).

Definition set_disabled (d : bool) : Act unit :=
  fun b => (Normal tt, mkBrowser (mkButton (buttonHTML (target b)) d) (dialogs b) (page b)).

Declare Scope act_scope.
Delimit Scope act_scope with act.
Notation "x <- m ; k" := (act_bind m (fun x => k))
  (at level 100, m at next level, right associativity) : act_scope.
Notation "m ;; k" := (act_bind m (fun _ => k))
  (at level 100, right associativity) : act_scope.

Definition nl : string := String (Ascii.ascii_of_nat 10) EmptyString.

Definition and_then {A B} (r : Error + A) (k : A -> Error + B) : Error + B :=
  match r with
  | inl e => inl e
  | inr a => k a
  end.

Module Actions.

Section Handlers.
Context `{Runtime} (net : Network) (apiClient : HealthcareAPIClient.t).

(** [`${testResults.section.field}`]. *)
Definition shown_field (testResults : Value) (section field : string) : Error + string :=
  and_then (get_prop testResults section) (fun part =>
  and_then (get_prop part field) (fun v => inr (ToString v))).

(** One line of the Epic report. *)
Definition epicLine (label : string) (testResults : Value) (section : string)
  : Error + string :=
  and_then (shown_field testResults section "status") (fun status =>
  and_then (shown_field testResults section "response_time") (fun time =>
  inr ("✅ " ++ label ++ ": " ++ status ++ " (" ++ time ++ "ms)" ++ nl))).

Definition epicMessage (testResults : Value) : Error + string :=
  and_then (epicLine "OAuth 2.0 Authentication" testResults "oauth_auth") (fun l1 =>
  and_then (epicLine "Patient API" testResults "patient_api") (fun l2 =>
  and_then (epicLine "Appointment API" testResults "appointment_api") (fun l3 =>
  and_then (epicLine "Provider Directory" testResults "provider_directory") (fun l4 =>
  and_then (get_prop testResults "overall_status") (fun overall =>
  inr ("Epic MyChart Connection Test Results:" ++ nl ++ nl
         ++ l1 ++ l2 ++ l3 ++ l4 ++ nl
         ++ "Overall Status: " ++ ToString overall)))))).

Definition epicFailure : string :=
  "Epic connection test failed. Please check the console for details.".

Definition testEpicConnection : Act unit :=
  (originalText <- get_buttonHTML;
   set_buttonHTML (Str (spinner ++ " Testing..."));;
   set_disabled true;;
   on_page (console_log "Epic connection test initiated" []);;
   try_catch_finally
     (testResults <- on_page (HealthcareAPIClientTests.testEpicConnection net apiClient);
      alertMessage <- on_page (lift (epicMessage testResults));
      alert alertMessage;;
      on_page (console_log "Epic connection test completed:" [ArgValue testResults]))
     (fun error =>
        on_page (console_error "Epic connection test failed:" [ArgError error]);;
        alert epicFailure)
     (set_buttonHTML originalText;;
      set_disabled false))%act.

(** One line of the Cerner report. *)
Definition cernerLine (mark label : string) (testResults : Value) (section : string)
  : Error + string :=
  and_then (shown_field testResults section "status") (fun status =>
  inr (mark ++ " " ++ label ++ ": " ++ status ++ nl)).

Definition cernerMessage (testResults : Value) : Error + string :=
  and_then (cernerLine "✅" "SMART on FHIR" testResults "smart_on_fhir") (fun l1 =>
  and_then (cernerLine "✅" "Medication Orders API" testResults "medication_orders") (fun l2 =>
  and_then (cernerLine "✅" "Lab Results Integration" testResults "lab_results") (fun l3 =>
  and_then (cernerLine "⚠️" "Radiology Reports" testResults "radiology_reports") (fun l4 =>
  and_then (get_prop testResults "overall_status") (fun overall =>
  inr ("Cerner PowerChart Connection Test Results:" ++ nl ++ nl
         ++ l1 ++ l2 ++ l3 ++ l4 ++ nl
         ++ "Overall Status: " ++ ToString overall)))))).

Definition cernerFailure : string :=
  "Cerner connection test failed. Please check the console for details.".

Definition testCernerConnection : Act unit :=
  (originalText <- get_buttonHTML;
   set_buttonHTML (Str (spinner ++ " Testing..."));;
   set_disabled true;;
   on_page (console_log "Cerner connection test initiated" []);;
   try_catch_finally
     (testResults <- on_page (HealthcareAPIClientTests.testCernerConnection net apiClient);
      alertMessage <- on_page (lift (cernerMessage testResults));
      alert alertMessage;;
      on_page (console_log "Cerner connection test completed:" [ArgValue testResults]))
     (fun error =>
        on_page (console_error "Cerner connection test failed:" [ArgError error]);;
        alert cernerFailure)
     (set_buttonHTML originalText;;
      set_disabled false))%act.

Definition azureFailure : string :=
  "Azure metrics refresh failed. Please check the console for details.".

(** The [try] block of [refreshAzureMetrics]. *)
Definition showAzureMetrics : M unit :=
  metrics <- HealthcareAPIClient.getAzureMetrics net apiClient;
  (* Update Azure metrics in the UI *)
  sla_compliance <- prop metrics "sla_compliance";
  hideLoading "azureSLA" (with_suffix sla_compliance "%");;
  data_processed_tb <- prop metrics "data_processed_tb";
  hideLoading "azureDataProcessed" (with_suffix data_processed_tb "TB");;
  api_calls_per_second <- prop metrics "api_calls_per_second";
  hideLoading "azureApiCalls" (formatNumber api_calls_per_second);;
  console_log "Azure metrics refreshed successfully:" [ArgValue metrics].

Definition refreshAzureMetrics : Act unit :=
  (originalText <- get_buttonHTML;
   set_buttonHTML (Str (spinner ++ " Refreshing..."));;
   set_disabled true;;
   on_page (console_log "Azure metrics refresh initiated" []);;
   try_catch_finally
     (on_page showAzureMetrics)
     (fun error =>
        on_page (console_error "Azure metrics refresh failed:" [ArgError error]);;
        alert azureFailure)
     (set_buttonHTML originalText;;
      set_disabled false))%act.

End Handlers.
End Actions.

(** ** A concrete page, used to run the definitions *)

Module Sample.

(** Prints integers exactly and everything else to three decimals;
    parses nothing. *)
Definition print (x : float) : string :=
  match Prim2SF x with
  | S754_zero _ => "0"
  | S754_infinity s => if s then "-Infinity" else "Infinity"
  | S754_nan => "NaN"
  | S754_finite s m e =>
      let sign := if s then "-" else "" in
      if (0 <=? e)%Z then sign ++ Z_to_string (Z.pos m * 2 ^ e)
      else if (Z.pos m mod 2 ^ (- e) =? 0)%Z then sign ++ Z_to_string (Z.pos m / 2 ^ (- e))
      else sign ++ place_point (Z_to_string (round_half_up m e 3)) 3
  end.

Definition runtime (guarded : bool) : Runtime := {|
  Number_toString := print;
  Number_toLocaleString := print;
  StringToNumber := fun _ => PrimFloat.nan;
  canvas_reuse_throws := guarded
|}.

Definition widget (content : string) : Element := mkElement false (Str content).

Definition page : gmap string Element :=
  list_to_map
    [("fhirPatients", widget "1,000"); ("fhirRequests", widget "10");
     ("fhirUptime", widget "99.0%");
     ("hl7Messages", widget "500"); ("hl7MostCommon", widget "ADT");
     ("hl7ProcessingTime", widget "1s");
     ("epicProviderOrgs", widget "3"); ("epicPatientRecords", widget "2M");
     ("epicResponseTime", widget "80ms");
     ("azureSLA", widget "99.0%"); ("azureDataProcessed", widget "1TB");
     ("azureApiCalls", widget "7");
     ("epicAlertTime", widget "80ms"); ("hl7QueueDepth", widget "0");
     ("auditLogsToday", widget "1,000");
     ("responseTimeChart", mkElement true Undefined);
     ("messageVolumeChart", mkElement true Undefined);
     ("healthStatusChart", mkElement true Undefined);
     ("fhirTrendsChart", mkElement true Undefined)].

Definition world : World := mkWorld page [] [] ∅ 1%positive.

Definition apiClient : HealthcareAPIClient.t := HealthcareAPIClient.mk "".

Definition respond (v : Value) : FetchOutcome :=
  Responded (mkResponse 200 "OK" "" (Some v)).

Definition fhirBody : Value :=
  Obj [("active_patients", Num 1247); ("requests_per_minute", Num 42);
       ("uptime_percentage", Num 99.9)].
Definition hl7Body : Value :=
  Obj [("daily_message_count", Num 892); ("most_common_type", Str "ORU");
       ("avg_processing_time", Num 2); ("queue_depth", Num 5)].
Definition epicBody : Value :=
  Obj [("provider_organizations", Num 12); ("patient_records", Str "3M");
       ("response_time_ms", Num 95)].
Definition azureBody : Value :=
  Obj [("sla_compliance", Num 97.2); ("data_processed_tb", Num 4);
       ("api_calls_per_second", Num 321)].
Definition responseTimeBody : Value :=
  Obj [("labels", Arr [Str "00:00"; Str "06:00"]);
       ("datasets", Arr [Obj [("label", Str "Epic"); ("borderColor", Str "#0078d4");
                              ("data", Arr [Num 120; Num 95])]])].
Definition messageVolumeBody : Value :=
  Obj [("labels", Arr [Str "ADT"; Str "ORM"; Str "ORU"; Str "SIU"; Str "MDM"]);
       ("data", Arr (Num <$> HealthcareChartsManager.baseData));
       ("backgroundColor", Arr [])].
Definition systemHealthBody : Value :=
  Obj [("labels", Arr [Str "EpicAPI"; Str "CernerAPI"]);
       ("data", Arr [Num 99.9; Num 97.2]);
       ("backgroundColor", Arr [Str "#059669"; Str "#0078d4"])].

(** The message volume chart as it is created from [messageVolumeBody]. *)
Definition volumeChart : Chart :=
  mkChart "messageVolumeChart" doughnut
    (Arr [Str "ADT"; Str "ORM"; Str "ORU"; Str "SIU"; Str "MDM"])
    [[("data", Arr (Num <$> HealthcareChartsManager.baseData));
      ("backgroundColor", Arr []);
      ("borderWidth", Num 4);
      ("borderColor", Str "#ffffff");
      ("hoverBorderWidth", Num 6);
      ("hoverBorderColor", Str "#ffffff")]]
    HealthcareChartsManager.messageVolume_options false.

(** Every endpoint answers 200 with a well-formed body. *)
Definition healthy : Network := fun req =>
  if String.eqb (url req) "/api/fhir/metrics" then respond fhirBody
  else if String.eqb (url req) "/api/hl7/metrics" then respond hl7Body
  else if String.eqb (url req) "/api/epic/metrics" then respond epicBody
  else if String.eqb (url req) "/api/azure/metrics" then respond azureBody
  else if String.eqb (url req) "/api/analytics/response-times" then respond responseTimeBody
  else if String.eqb (url req) "/api/analytics/message-volume" then respond messageVolumeBody
  else if String.eqb (url req) "/api/analytics/system-health" then respond systemHealthBody
  else respond (Obj []).

(** The same service with one endpoint unreachable. *)
Definition failing (endpoint : string) : Network := fun req =>
  if String.eqb (url req) endpoint then Rejected else healthy req.

End Sample.

(** * Vocabulary of the properties *)

(** The world with more entries on the console. *)
Definition add_console (entries : list LogEntry) (w : World) : World :=
  mkWorld (document w) (console w ++ entries) (chartHeap w) (timers w) (nextTimer w).

Arguments add_console : simpl never.

(** What [fetchAPI] completes with, and what it writes to the console. *)
Definition fetch_outcome (net : Network) (this : HealthcareAPIClient.t)
    (endpoint : string) (options : FetchOptions) : Completion Value :=
  match net (mkRequest (HealthcareAPIClient.baseURL this ++ endpoint)
                       (default "GET" (optMethod options)) (optBody options)) with
  | Rejected => Throw NetworkError
  | Responded r =>
      if ok r then
        match json r with
        | Some data => Normal data
        | None => Throw SyntaxError
        end
      else Throw (ApiRequestFailed (status r) (statusText r))
  end.

(** [m], when it completes normally, does so with [Q]. *)
Definition on_normal {A} (Q : A -> World -> Prop) (m : M A) : Prop :=
  forall w a w', m w = (Normal a, w') -> Q a w'.

(** [m] moves the chart heap along [R], whatever it completes with. *)
Definition heap_step (R : relation (list Chart)) {A} (m : M A) : Prop :=
  forall w, R (chartHeap w) (chartHeap (m w).2).

(** Two datasets that agree on everything but [data]. *)
Definition same_dataset_new_data (d d' : list (string * Value)) : Prop :=
  forall k, k <> "data" -> obj_get k d' = obj_get k d.

(** The same chart object, with possibly different data in its
    datasets: same canvas, type, labels and configuration, same number
    of datasets, and destroyed or not as before. *)
Definition same_chart_new_data (c c' : Chart) : Prop :=
  canvas c' = canvas c /\ type c' = type c /\ labels c' = labels c /\
  options c' = options c /\ destroyed c' = destroyed c /\
  Forall2 same_dataset_new_data (datasets c) (datasets c').

(** Every handle denotes the same chart as before, up to dataset data;
    no chart was added. *)
Definition refreshed : relation (list Chart) := Forall2 same_chart_new_data.

(** The heap after [destroy] was called on the charts among [entries]. *)
Definition destroy_entries (heap : list Chart) (entries : list Entry) : list Chart :=
  foldl (fun heap e => match e with
                       | EChart h => alter mark_destroyed h heap
                       | _ => heap
                       end) heap entries.

(** The four metric queries of a refresh cycle, in the order in which
    the cycle fetches them. *)
Inductive Query := FHIR | HL7 | Epic | Azure.

Definition endpoint (q : Query) : string :=
  match q with
  | FHIR => HealthcareAPIClient.fhir_metrics
  | HL7 => HealthcareAPIClient.hl7_metrics
  | Epic => HealthcareAPIClient.epic_metrics
  | Azure => HealthcareAPIClient.azure_metrics
  end.

Definition position (q : Query) : nat :=
  match q with
  | FHIR => 0
  | HL7 => 1
  | Epic => 2
  | Azure => 3
  end.

(** [before q' q]: the cycle fetches [q'] before [q]. *)
Definition before (q' q : Query) : bool := Nat.ltb (position q') (position q).

(** How the fetch of a query's metrics completes. *)
Definition fetched (net : Network) (apiClient : HealthcareAPIClient.t) (q : Query)
  : Completion Value :=
  fetch_outcome net apiClient (endpoint q) noOptions.

(** The widgets of a query, with what the cycle writes into them when
    the query's body is the object with properties [body]. *)
Definition written `{Runtime} (q : Query) (body : list (string * Value))
  : list (string * Value) :=
  match q with
  | FHIR =>
      [("fhirPatients", formatNumber (obj_get "active_patients" body));
       ("fhirRequests", formatNumber (obj_get "requests_per_minute" body));
       ("fhirUptime", formatPercentage (obj_get "uptime_percentage" body))]
  | HL7 =>
      [("hl7Messages", formatNumber (obj_get "daily_message_count" body));
       ("hl7MostCommon", obj_get "most_common_type" body);
       ("hl7ProcessingTime", with_suffix (obj_get "avg_processing_time" body) "s")]
  | Epic =>
      [("epicProviderOrgs", formatNumber (obj_get "provider_organizations" body));
       ("epicPatientRecords", obj_get "patient_records" body);
       ("epicResponseTime", with_suffix (obj_get "response_time_ms" body) "ms")]
  | Azure =>
      [("azureSLA", formatPercentage (obj_get "sla_compliance" body));
       ("azureDataProcessed", with_suffix (obj_get "data_processed_tb" body) "TB");
       ("azureApiCalls", formatNumber (obj_get "api_calls_per_second" body))]
  end.

Definition widgets (q : Query) : list string :=
  match q with
  | FHIR => ["fhirPatients"; "fhirRequests"; "fhirUptime"]
  | HL7 => ["hl7Messages"; "hl7MostCommon"; "hl7ProcessingTime"]
  | Epic => ["epicProviderOrgs"; "epicPatientRecords"; "epicResponseTime"]
  | Azure => ["azureSLA"; "azureDataProcessed"; "azureApiCalls"]
  end.

(** The alert elements, written at the end of a cycle. *)
Definition alerts : list string := ["epicAlertTime"; "hl7QueueDepth"; "auditLogsToday"].

(** The page after [content] was assigned to the [innerHTML] of the
    element [id], if there is one. *)
Definition write (id : string) (content : Value) (doc : gmap string Element)
  : gmap string Element :=
  alter (fun el => mkElement (isCanvas el) content) id doc.

Definition write_all (items : list (string * Value)) (doc : gmap string Element)
  : gmap string Element :=
  foldl (fun doc item => write item.1 item.2 doc) doc items.

(** The world after [hideLoading id content]. *)
Definition shown (id : string) (content : Value) (w : World) : World :=
  mkWorld (write id content (document w))
          (console w ++
             match document w !! id with
             | Some _ => [mkLogEntry LevelLog
                            ("Updated element " ++ id ++ " with content:")
                            [ArgValue content]]
             | None => []
             end)
          (chartHeap w) (timers w) (nextTimer w).
(** What one of the four chart creations does to the manager and the
    world: it completes normally, leaves the page and the timers alone
    and either changes nothing else or appends one live chart on its
    canvas and registers its handle under its name. *)
Definition creation_effect (canvasId name : string) (this : HealthcareChartsManager.t)
    (w : World) (r : Completion HealthcareChartsManager.t * World) : Prop :=
  exists this' w',
    r = (Normal this', w') /\
    document w' = document w /\ timers w' = timers w /\ nextTimer w' = nextTimer w /\
    ((this' = this /\ chartHeap w' = chartHeap w) \/
     (exists c,
        canvas c = canvasId /\ destroyed c = false /\
        chartHeap w' = (chartHeap w ++ [c])%list /\
        this' = HealthcareChartsManager.mk
                  (<[name := EChart (length (chartHeap w))]>
                     (HealthcareChartsManager.charts this))
                  (HealthcareChartsManager.updateInterval this))).

(** The canvases of the four charts. *)
Definition chartCanvases : list string :=
  ["responseTimeChart"; "messageVolumeChart"; "healthStatusChart"; "fhirTrendsChart"].

(** [m] moves the world along [R], whatever it completes with. *)
Definition world_step (R : relation World) {A} (m : M A) : Prop :=
  forall w, R w (m w).2.

(** A relation between worlds that does not look at the console. *)
Class ConsoleBlind (R : relation World) : Prop :=
  console_blind : forall w entries,
    R w (mkWorld (document w) entries (chartHeap w) (timers w) (nextTimer w)).

(** Between the two worlds only the [innerHTML] of elements among
    [ids] may differ: the page has the same elements, canvas or not,
    and the charts and the timers are the same. *)
Definition writes_only (ids : list string) (w w' : World) : Prop :=
  timers w' = timers w /\ nextTimer w' = nextTimer w /\ chartHeap w' = chartHeap w /\
  forall id,
    (isCanvas <$> document w' !! id) = (isCanvas <$> document w !! id) /\
    (id ∉ ids -> document w' !! id = document w !! id).

(** The elements a refresh cycle may write. *)
Definition refreshTargets : list string :=
  widgets FHIR ++ widgets HL7 ++ widgets Epic ++ widgets Azure ++ alerts.

(** The world after [showError id message]. *)
Definition error_shown `{Runtime} (id : string) (message : Value) (w : World) : World :=
  mkWorld (write id (Str (errorMarkup (ToString message))) (document w))
          (console w ++
             match document w !! id with
             | Some _ => [mkLogEntry LevelError
                            ("Error displayed in element " ++ id ++ ":")
                            [ArgValue message]]
             | None => []
             end)
          (chartHeap w) (timers w) (nextTimer w).

(** [v.k] for a value that is neither [null] nor [undefined]. *)
Definition field_of (v : Value) (k : string) : Value :=
  match v with
  | Obj props => obj_get k props
  | _ => Undefined
  end.

(** What a manual refresh writes into the Azure widgets for the body
    [metrics]. *)
Definition azureItems `{Runtime} (metrics : Value) : list (string * Value) :=
  [("azureSLA", with_suffix (field_of metrics "sla_compliance") "%");
   ("azureDataProcessed", with_suffix (field_of metrics "data_processed_tb") "TB");
   ("azureApiCalls", formatNumber (field_of metrics "api_calls_per_second"))].

(** Is the value [null] or [undefined]? *)
Definition nullish (v : Value) : bool :=
  match v with
  | Undefined | Null => true
  | _ => false
  end.

(** The report a connection test puts in its alert: the message built
    from a body that has every part, the failure text otherwise. *)
Definition report (message : Value -> Error + string) (failure : string)
    (outcome : Completion Value) : string :=
  match outcome with
  | Normal testResults =>
      match message testResults with
      | inr text => text
      | inl _ => failure
      end
  | Throw _ => failure
  end.

(** The body is there and so is each of the named parts. *)
Definition has_parts (v : Value) (sections : list string) : bool :=
  negb (nullish v) && forallb (fun k => negb (nullish (field_of v k))) sections.

Definition epicSections : list string :=
  ["oauth_auth"; "patient_api"; "appointment_api"; "provider_directory"].

Definition cernerSections : list string :=
  ["smart_on_fhir"; "medication_orders"; "lab_results"; "radiology_reports"].

(** Dataset [i] of the response time chart after an update that
    fetched the datasets [items]: it takes the [data] of the fetched
    dataset of the same index when there is one, and stays as it is
    otherwise. *)
Definition merge_dataset (items : list Value) (i : nat) (d : list (string * Value))
  : list (string * Value) :=
  let item := default Undefined (items !! i) in
  if truthy item then obj_set "data" (field_of item "data") d else d.

(** [merge_dataset] applied to the datasets [k], [k+1], ... [k+n-1],
    one after the other. *)
Fixpoint copy_range (items : list Value) (k n : nat)
    (ds : list (list (string * Value))) : list (list (string * Value)) :=
  match n with
  | O => ds
  | S n' => copy_range items (S k) n' (alter (merge_dataset items k) k ds)
  end.

Definition with_datasets (ds : list (list (string * Value))) (c : Chart) : Chart :=
  mkChart (canvas c) (type c) (labels c) ds (options c) (destroyed c).

(** The properties the response time chart sets on every dataset. *)
Definition styledKeys : list string :=
  ["backgroundColor"; "borderWidth"; "fill"; "tension"; "pointBackgroundColor";
   "pointBorderColor"; "pointBorderWidth"; "pointRadius"].


(** * Properties *)

(** ** Running the primitives *)

Lemma bind_emit {B} l msg args (k : unit -> M B) w :
  bind (emit l msg args) k w = k tt (add_console [mkLogEntry l msg args] w).
Proof. reflexivity. Qed.

Ltac run :=
  cbv [bind try_catch ret throw lift prop emit console_log console_warn
       console_error getElementById add_console negb from_option id];
  cbn [document console chartHeap timers nextTimer fst snd].

Lemma fetchAPI_run net this endpoint options w :
  exists entries,
    HealthcareAPIClient.fetchAPI net this endpoint options w
    = (fetch_outcome net this endpoint options, add_console entries w).
Proof.
  unfold HealthcareAPIClient.fetchAPI, fetch_outcome.
  destruct (net _) as [|r]; [|destruct (ok r); [destruct (json r)|]];
    run; eexists; rewrite <- ?app_assoc; reflexivity.
Qed.

(** ** C10: the formatting helpers leave non-numbers alone *)

(** C10. For every input whose [typeof] is not ["number"], [formatNumber]
    and [formatPercentage] return the input unchanged; a number becomes
    its locale string, respectively its one-decimal rendering followed
    by a percent sign. *)
Theorem format_helpers_pass_non_numbers `{Runtime} (x : Value) :
  typeof x <> "number" ->
  formatNumber x = x /\ formatPercentage x = x /\
  (forall n, formatNumber (Num n) = Str (Number_toLocaleString n)) /\
  (forall n, formatPercentage (Num n) = Str (toFixed n 1 ++ "%")).
Proof.
  intros Hty. repeat split; try reflexivity; destruct x; try reflexivity;
  by destruct Hty.
Qed.

Lemma format_helpers_pass_non_numbers_witness :
  formatNumber (H := Sample.runtime true) (Str "3M") = Str "3M" /\
  formatPercentage (H := Sample.runtime true) Undefined = Undefined.
Proof.
  split.
  - apply (format_helpers_pass_non_numbers (H := Sample.runtime true) (Str "3M")).
    discriminate.
  - apply (format_helpers_pass_non_numbers (H := Sample.runtime true) Undefined).
    discriminate.
Defined.

(** ** C8: stopping a scheduler that is not running *)

(** C8. [stop] on a refresh manager whose [intervalId] is [null], and
    [stopAutoUpdate] on a charts manager whose [updateInterval] is
    [null], complete normally and change neither the manager nor the
    world. This is the state of a manager that was never started, and
    the state a first [stop] leaves behind, with the interval as it was
    configured: a second [stop] changes nothing. *)
Theorem stop_when_idle_is_noop (w : World) (ms : float) (registry : gmap string Entry) :
  MetricsRefreshManager.stop (MetricsRefreshManager.mk ms None) w
    = (Normal (MetricsRefreshManager.mk ms None), w) /\
  HealthcareChartsManager.stopAutoUpdate (HealthcareChartsManager.mk registry None) w
    = (Normal (HealthcareChartsManager.mk registry None), w) /\
  (MetricsRefreshManager.new ms w).1 = Normal (MetricsRefreshManager.mk ms None) /\
  (HealthcareChartsManager.new w).1 = Normal (HealthcareChartsManager.mk ∅ None) /\
  (forall this,
     let stopped := MetricsRefreshManager.mk (MetricsRefreshManager.intervalMs this) None in
     let once := MetricsRefreshManager.stop this w in
     once.1 = Normal stopped /\
     MetricsRefreshManager.stop stopped once.2 = (Normal stopped, once.2)) /\
  (forall this,
     let stopped := HealthcareChartsManager.mk (HealthcareChartsManager.charts this) None in
     let once := HealthcareChartsManager.stopAutoUpdate this w in
     once.1 = Normal stopped /\
     HealthcareChartsManager.stopAutoUpdate stopped once.2 = (Normal stopped, once.2)).
Proof.
  repeat split.
  - destruct this as [ms' [id|]]; reflexivity.
  - destruct this as [reg [id|]]; reflexivity.
Qed.

(** ** C3: the gateway client does not validate response bodies *)

(** C3, as stated, fails: a 200 response whose body has two labels, a
    series of one value and no colour is returned as it is. *)
Lemma fetchAPI_accepts_malformed_body :
  let malformed :=
    Obj [("labels", Arr [Str "00:00"; Str "06:00"]);
         ("datasets", Arr [Obj [("data", Arr [Num 120])]])] in
  let answer := HealthcareAPIClient.fetchAPI (fun _ => Sample.respond malformed)
                  Sample.apiClient HealthcareAPIClient.analytics_responseTimes
                  noOptions Sample.world in
  answer.1 = Normal malformed /\ ~ (exists e, answer.1 = Throw e).
Proof.
  split; [reflexivity|]. intros [e He]. discriminate He.
Qed.

(** C3, amended. Whenever the service answers with a 2xx status and a
    body that parses as JSON, [fetchAPI] completes normally with that
    body, unchanged, whatever fields it has or lacks; nothing but the
    console is written. *)
Theorem fetchAPI_returns_body_unvalidated (net : Network) (this : HealthcareAPIClient.t)
    (endpoint : string) (options : FetchOptions) (w : World) (r : Response) (data : Value) :
  net (mkRequest (HealthcareAPIClient.baseURL this ++ endpoint)
                 (default "GET" (optMethod options)) (optBody options)) = Responded r ->
  ok r = true ->
  json r = Some data ->
  exists entries,
    HealthcareAPIClient.fetchAPI net this endpoint options w
    = (Normal data, add_console entries w).
Proof.
  intros Hnet Hok Hjson.
  destruct (fetchAPI_run net this endpoint options w) as [entries Hrun].
  exists entries. rewrite Hrun. unfold fetch_outcome.
  by rewrite Hnet, Hok, Hjson.
Qed.

Lemma fetchAPI_returns_body_unvalidated_witness :
  exists entries,
    HealthcareAPIClient.fetchAPI (fun _ => Sample.respond (Obj [])) Sample.apiClient
      HealthcareAPIClient.fhir_metrics noOptions Sample.world
    = (Normal (Obj []), add_console entries Sample.world).
Proof.
  apply (fetchAPI_returns_body_unvalidated (fun _ => Sample.respond (Obj []))
           Sample.apiClient HealthcareAPIClient.fhir_metrics noOptions Sample.world
           (mkResponse 200 "OK" "" (Some (Obj []))) (Obj []));
    reflexivity.
Defined.

(** ** C5: a cycle never throws *)

Lemma on_normal_bind {A B} (Q : B -> World -> Prop) (m : M A) (k : A -> M B) :
  (forall a, on_normal Q (k a)) -> on_normal Q (bind m k).
Proof.
  intros Hk w b w'. unfold bind.
  destruct (m w) as [[a|e] w1]; [apply Hk | discriminate].
Qed.

Lemma on_normal_emit (Q : unit -> World -> Prop) l msg args :
  (forall w, Q tt (add_console [mkLogEntry l msg args] w)) ->
  on_normal Q (emit l msg args).
Proof. intros HQ w a w' [= <- <-]. apply HQ. Qed.

Lemma on_normal_emit_ret {A} (Q : A -> World -> Prop) l msg args (a0 : A) :
  (forall w, Q a0 (add_console [mkLogEntry l msg args] w)) ->
  on_normal Q (emit l msg args;; ret a0).
Proof. intros HQ w a w' [= <- <-]. apply HQ. Qed.

Lemma last_add_console entry w : last (console (add_console [entry] w)) = Some entry.
Proof. unfold add_console; simpl. apply last_snoc. Qed.

(** A body under [try]/[catch] whose handler only logs: the whole
    completes normally, and the console ends with the body's last
    entry or with the handler's. *)
Lemma guarded_cycle {A} (a0 : A) (okEntry : LogEntry) (errEntry : Error -> LogEntry)
    (body : M A) (handler : Error -> M A) (w : World) :
  on_normal (fun a w' => a = a0 /\ last (console w') = Some okEntry) body ->
  (forall e w, handler e w = (Normal a0, add_console [errEntry e] w)) ->
  exists w',
    try_catch body handler w = (Normal a0, w') /\
    (last (console w') = Some okEntry \/
     exists e, last (console w') = Some (errEntry e)).
Proof.
  intros Hbody Hhandler. unfold try_catch.
  destruct (body w) as [[a|e] w1] eqn:Hrun.
  - destruct (Hbody _ _ _ Hrun) as [-> Hlast]. eauto.
  - rewrite Hhandler. eexists; split; [reflexivity|].
    right. exists e. apply last_add_console.
Qed.

Ltac to_the_last_entry :=
  unfold console_log;
  repeat first
    [ apply on_normal_emit_ret; intros; split; [reflexivity | apply last_add_console]
    | apply on_normal_emit; intros; split; [by destruct_all unit | apply last_add_console]
    | apply on_normal_bind; intros ].

Lemma refreshAllMetrics_completes `{Runtime} net apiClient w :
  exists w',
    MetricsRefreshManager.refreshAllMetrics net apiClient w = (Normal tt, w') /\
    (last (console w')
       = Some (mkLogEntry LevelLog "All metrics refreshed successfully" []) \/
     exists e, last (console w')
       = Some (mkLogEntry LevelError "Error refreshing metrics:" [ArgError e])).
Proof.
  unfold MetricsRefreshManager.refreshAllMetrics.
  unfold console_log at 1. rewrite bind_emit.
  apply (guarded_cycle tt _
           (fun e => mkLogEntry LevelError "Error refreshing metrics:" [ArgError e])).
  - to_the_last_entry.
  - reflexivity.
Qed.

Lemma updateAllCharts_completes `{Runtime} net apiClient random this w :
  exists w',
    HealthcareChartsManager.updateAllCharts net apiClient random this w
      = (Normal this, w') /\
    (last (console w')
       = Some (mkLogEntry LevelLog "All charts updated successfully" []) \/
     exists e, last (console w')
       = Some (mkLogEntry LevelError "Error updating charts:" [ArgError e])).
Proof.
  unfold HealthcareChartsManager.updateAllCharts.
  unfold console_log at 1. rewrite bind_emit.
  apply (guarded_cycle this _
           (fun e => mkLogEntry LevelError "Error updating charts:" [ArgError e])).
  - to_the_last_entry.
  - reflexivity.
Qed.

(** C5. Whatever the fetches of a cycle do, [refreshAllMetrics] and
    [updateAllCharts] complete normally: a throw inside the cycle is
    caught and ends as an error entry on the console, the only other
    ending being the entry that reports success. *)
Theorem cycles_never_throw `{Runtime} (net : Network) (apiClient : HealthcareAPIClient.t)
    (random : nat -> float) (this : HealthcareChartsManager.t) (w : World) :
  (exists w',
     MetricsRefreshManager.refreshAllMetrics net apiClient w = (Normal tt, w') /\
     (last (console w')
        = Some (mkLogEntry LevelLog "All metrics refreshed successfully" []) \/
      exists e, last (console w')
        = Some (mkLogEntry LevelError "Error refreshing metrics:" [ArgError e]))) /\
  (exists w',
     HealthcareChartsManager.updateAllCharts net apiClient random this w
       = (Normal this, w') /\
     (last (console w')
        = Some (mkLogEntry LevelLog "All charts updated successfully" []) \/
      exists e, last (console w')
        = Some (mkLogEntry LevelError "Error updating charts:" [ArgError e]))).
Proof.
  split.
  - apply refreshAllMetrics_completes.
  - apply updateAllCharts_completes.
Qed.

(** ** Steps on the chart heap *)

Section HeapSteps.
Context (R : relation (list Chart)) `{!PreOrder R}.

Lemma heap_step_ret {A} (a : A) : heap_step R (ret a).
Proof. intros w. reflexivity. Qed.

Lemma heap_step_throw {A} e : heap_step R (@throw A e).
Proof. intros w. reflexivity. Qed.

Lemma heap_step_lift {A} (r : Error + A) : heap_step R (lift r).
Proof. destruct r; [apply heap_step_throw | apply heap_step_ret]. Qed.

Lemma heap_step_prop v k : heap_step R (prop v k).
Proof. apply heap_step_lift. Qed.

Lemma heap_step_emit l msg args : heap_step R (emit l msg args).
Proof. intros w. reflexivity. Qed.

Lemma heap_step_getElementById id : heap_step R (getElementById id).
Proof. intros w. reflexivity. Qed.

Lemma heap_step_set_innerHTML id content : heap_step R (set_innerHTML id content).
Proof. intros w. reflexivity. Qed.

Lemma heap_step_getChart h : heap_step R (getChart h).
Proof. intros w. reflexivity. Qed.

Lemma heap_step_getContext2d el : heap_step R (getContext2d el).
Proof. unfold getContext2d. destruct (isCanvas el); intros w; reflexivity. Qed.

Lemma heap_step_setInterval cb ms : heap_step R (setInterval cb ms).
Proof. intros w. reflexivity. Qed.

Lemma heap_step_clearInterval id : heap_step R (clearInterval id).
Proof. intros w. reflexivity. Qed.

Lemma heap_step_bind {A B} (m : M A) (k : A -> M B) :
  heap_step R m -> (forall a, heap_step R (k a)) -> heap_step R (bind m k).
Proof.
  intros Hm Hk w. unfold bind. specialize (Hm w).
  destruct (m w) as [[a|e] w1]; simpl in *; [|done].
  etrans; [exact Hm | apply Hk].
Qed.

Lemma heap_step_try_catch {A} (body : M A) (handler : Error -> M A) :
  heap_step R body -> (forall e, heap_step R (handler e)) ->
  heap_step R (try_catch body handler).
Proof.
  intros Hm Hk w. unfold try_catch. specialize (Hm w).
  destruct (body w) as [[a|e] w1]; simpl in *; [done|].
  etrans; [exact Hm | apply Hk].
Qed.

Lemma heap_step_forEach {A} (l : list A) (f : A -> M unit) :
  (forall a, heap_step R (f a)) -> heap_step R (forEach l f).
Proof.
  intros Hf. induction l as [|a l IH]; simpl.
  - apply heap_step_ret.
  - apply heap_step_bind; [apply Hf | intros _; exact IH].
Qed.

Lemma heap_step_mapM {A B} (f : A -> M B) (l : list A) :
  (forall a, heap_step R (f a)) -> heap_step R (mapM f l).
Proof.
  intros Hf. induction l as [|a l IH]; simpl.
  - apply heap_step_ret.
  - apply heap_step_bind; [apply Hf | intros b].
    apply heap_step_bind; [exact IH | intros bs; apply heap_step_ret].
Qed.

Lemma heap_step_fetchAPI net this endpoint options :
  heap_step R (HealthcareAPIClient.fetchAPI net this endpoint options).
Proof.
  intros w. destruct (fetchAPI_run net this endpoint options w) as [entries ->].
  reflexivity.
Qed.

Lemma heap_step_hideLoading id content : heap_step R (hideLoading id content).
Proof.
  intros w. unfold hideLoading. run. destruct (document w !! id); reflexivity.
Qed.

End HeapSteps.

(** Decompose a computation into its steps, leaving the steps that
    touch the heap. *)
Ltac heap_steps :=
  unfold console_log, console_warn, console_error;
  repeat match goal with
    | |- heap_step ?R (bind _ _) => apply (heap_step_bind R); [|intros]
    | |- heap_step ?R (try_catch _ _) => apply (heap_step_try_catch R); [|intros]
    | |- heap_step ?R (forEach _ _) => apply (heap_step_forEach R); intros
    | |- heap_step ?R (mapM _ _) => apply (heap_step_mapM R); intros
    | |- heap_step ?R (ret _) => apply (heap_step_ret R)
    | |- heap_step ?R (throw _) => apply (heap_step_throw R)
    | |- heap_step ?R (lift _) => apply (heap_step_lift R)
    | |- heap_step ?R (prop _ _) => apply (heap_step_prop R)
    | |- heap_step ?R (emit _ _ _) => apply (heap_step_emit R)
    | |- heap_step ?R (getElementById _) => apply (heap_step_getElementById R)
    | |- heap_step ?R (set_innerHTML _ _) => apply (heap_step_set_innerHTML R)
    | |- heap_step ?R (getChart _) => apply (heap_step_getChart R)
    | |- heap_step ?R (getContext2d _) => apply (heap_step_getContext2d R)
    | |- heap_step ?R (setInterval _ _) => apply (heap_step_setInterval R)
    | |- heap_step ?R (clearInterval _) => apply (heap_step_clearInterval R)
    | |- heap_step ?R (HealthcareAPIClient.fetchAPI _ _ _ _) =>
        apply (heap_step_fetchAPI R)
    | |- heap_step ?R (hideLoading _ _) => apply (heap_step_hideLoading R)
    | |- heap_step _ (match ?x with _ => _ end) => destruct x
    end.

(** ** C4: a refresh keeps every chart handle *)

Lemma Forall2_diag {A} (P : A -> A -> Prop) (l : list A) :
  (forall x, P x x) -> Forall2 P l l.
Proof. intros HP. induction l; constructor; auto. Qed.

Lemma same_dataset_new_data_refl d : same_dataset_new_data d d.
Proof. by intros k _. Qed.

Lemma same_dataset_new_data_trans d1 d2 d3 :
  same_dataset_new_data d1 d2 -> same_dataset_new_data d2 d3 ->
  same_dataset_new_data d1 d3.
Proof. intros H12 H23 k Hk. by rewrite H23, H12. Qed.

Lemma same_chart_new_data_refl c : same_chart_new_data c c.
Proof.
  repeat split. apply Forall2_diag, same_dataset_new_data_refl.
Qed.

Lemma same_chart_new_data_trans c1 c2 c3 :
  same_chart_new_data c1 c2 -> same_chart_new_data c2 c3 ->
  same_chart_new_data c1 c3.
Proof.
  intros (Ha & Hb & Hc & Hd & He & Hf) (Ha' & Hb' & Hc' & Hd' & He' & Hf').
  repeat split; try congruence.
  eapply Forall2_trans; [apply same_dataset_new_data_trans | exact Hf | exact Hf'].
Qed.

#[local] Instance refreshed_preorder : PreOrder refreshed.
Proof.
  split.
  - intros h. apply Forall2_diag, same_chart_new_data_refl.
  - intros h1 h2 h3 H12 H23.
    eapply Forall2_trans; [apply same_chart_new_data_trans | exact H12 | exact H23].
Qed.

Lemma obj_get_obj_set_ne k k' v props :
  k <> k' -> obj_get k (obj_set k' v props) = obj_get k props.
Proof.
  intros Hne. induction props as [|[k0 v0] rest IH]; simpl.
  - destruct (String.eqb_spec k k'); [done | reflexivity].
  - destruct (String.eqb_spec k' k0) as [->|Hk0]; simpl.
    + destruct (String.eqb_spec k k0); [done | reflexivity].
    + destruct (String.eqb_spec k k0); [reflexivity | exact IH].
Qed.

Lemma obj_get_obj_set_eq k v props : obj_get k (obj_set k v props) = v.
Proof.
  induction props as [|[k0 v0] rest IH]; simpl.
  - by rewrite String.eqb_refl.
  - destruct (String.eqb_spec k k0) as [->|Hk0]; simpl.
    + by rewrite String.eqb_refl.
    + destruct (String.eqb_spec k k0); [done | exact IH].
Qed.

(** Writing a dataset's [data] is the one heap update of a refresh. *)
Lemma heap_step_set_dataset_data h i v : heap_step refreshed (set_dataset_data h i v).
Proof.
  intros w. unfold set_dataset_data; simpl.
  apply Forall2_alter_r; [reflexivity|].
  intros c c' _ _ (Ha & Hb & Hc & Hd & He & Hf).
  repeat split; simpl; try assumption.
  apply Forall2_alter_r; [exact Hf|].
  intros d d' _ _ Hd' k Hk. rewrite obj_get_obj_set_ne by done. by apply Hd'.
Qed.

Lemma heap_step_setFirstDatasetData h v :
  heap_step refreshed (HealthcareChartsManager.setFirstDatasetData h v).
Proof.
  unfold HealthcareChartsManager.setFirstDatasetData.
  heap_steps; apply heap_step_set_dataset_data.
Qed.

Lemma heap_step_updateAllCharts `{Runtime} net apiClient random this :
  heap_step refreshed (HealthcareChartsManager.updateAllCharts net apiClient random this).
Proof.
  unfold HealthcareChartsManager.updateAllCharts,
    HealthcareAPIClient.getResponseTimeAnalytics,
    HealthcareAPIClient.getMessageVolumeAnalytics,
    HealthcareAPIClient.getSystemHealthAnalytics,
    HealthcareChartsManager.copyDatasetData, Chart_update.
  heap_steps;
    first [ apply heap_step_set_dataset_data | apply heap_step_setFirstDatasetData ].
Qed.

(** C4. [updateAllCharts] returns the manager it was given, so the
    registry maps every name to the handle it mapped it to before; the
    heap has as many charts as before, and every handle denotes the
    chart object it denoted, neither destroyed nor replaced, whose
    canvas, type, labels and configuration are untouched and whose
    datasets differ at most in their [data]. *)
Theorem updateAllCharts_keeps_handles `{Runtime} (net : Network)
    (apiClient : HealthcareAPIClient.t) (random : nat -> float)
    (this : HealthcareChartsManager.t) (w : World) :
  exists w',
    HealthcareChartsManager.updateAllCharts net apiClient random this w
      = (Normal this, w') /\
    length (chartHeap w') = length (chartHeap w) /\
    forall (h : nat) (c : Chart),
      chartHeap w !! h = Some c ->
      exists c', chartHeap w' !! h = Some c' /\ same_chart_new_data c c'.
Proof.
  destruct (updateAllCharts_completes net apiClient random this w) as (w' & Hrun & _).
  exists w'. split; [exact Hrun|].
  pose proof (heap_step_updateAllCharts net apiClient random this w) as Hstep.
  rewrite Hrun in Hstep; simpl in Hstep.
  split.
  - symmetry. by eapply Forall2_length.
  - intros h c Hc.
    destruct (Forall2_lookup_l _ _ _ _ _ Hstep Hc) as (c' & Hc' & Hsame). eauto.
Qed.

(** ** C9: destroying all charts *)

Lemma with_heap_same w : with_heap (chartHeap w) w = w.
Proof. by destruct w. Qed.

Lemma forEach_destroy_run (entries : list Entry) (w : World) :
  forEach entries (fun chart => match chart with
                                | EChart h => Chart_destroy h
                                | _ => ret tt
                                end) w
  = (Normal tt, with_heap (destroy_entries (chartHeap w) entries) w).
Proof.
  revert w. induction entries as [|e rest IH]; intros w; simpl.
  - by rewrite with_heap_same.
  - unfold bind. destruct e; simpl; rewrite IH; try reflexivity.
Qed.

Lemma destroy_entries_lookup entries heap h :
  destroy_entries heap entries !! h = heap !! h \/
  destroy_entries heap entries !! h = mark_destroyed <$> heap !! h.
Proof.
  revert heap. induction entries as [|e rest IH]; intros heap; simpl; [by left|].
  destruct e as [| | |h0]; try apply IH.
  destruct (IH (alter mark_destroyed h0 heap)) as [-> | ->];
    destruct (decide (h0 = h)) as [->|Hne];
    rewrite ?list_lookup_alter_eq, ?list_lookup_alter_ne by done; auto.
  right. destruct (heap !! h); reflexivity.
Qed.

Lemma destroy_entries_hit entries heap h :
  EChart h ∈ entries ->
  destroy_entries heap entries !! h = mark_destroyed <$> heap !! h.
Proof.
  revert heap. induction entries as [|e rest IH]; intros heap Hin; [by inv Hin|].
  apply elem_of_cons in Hin as [<- | Hin]; simpl.
  - destruct (destroy_entries_lookup rest (alter mark_destroyed h heap) h) as [-> | ->];
      rewrite list_lookup_alter_eq; [done|].
    destruct (heap !! h); reflexivity.
  - destruct e as [| | |h0]; try by apply IH.
    rewrite IH by done.
    destruct (decide (h0 = h)) as [->|Hne];
      rewrite ?list_lookup_alter_eq, ?list_lookup_alter_ne by done; [|done].
    destruct (heap !! h); reflexivity.
Qed.

Lemma destroy_entries_length entries heap :
  length (destroy_entries heap entries) = length heap.
Proof.
  revert heap. induction entries as [|e rest IH]; intros heap; simpl; [done|].
  destruct e; rewrite IH; try done. apply length_alter.
Qed.

Lemma values_elem (this : HealthcareChartsManager.t) name e :
  HealthcareChartsManager.charts this !! name = Some e ->
  e ∈ HealthcareChartsManager.values this.
Proof.
  intros Hlook. unfold HealthcareChartsManager.values.
  apply list_elem_of_fmap. exists (name, e). split; [done|].
  by apply elem_of_map_to_list.
Qed.

(** C9. [destroyCharts] completes normally from every registry, also
    one with no entry at all or with entries that are [null],
    [undefined] or not charts: it leaves an empty registry and no
    running timer, every chart the registry held is destroyed, no other
    chart is touched otherwise than by being destroyed, and with an
    empty registry the heap is as before. *)
Theorem destroyCharts_is_safe (this : HealthcareChartsManager.t) (w : World) :
  exists w',
    HealthcareChartsManager.destroyCharts this w
      = (Normal (HealthcareChartsManager.mk ∅ None), w') /\
    document w' = document w /\
    length (chartHeap w') = length (chartHeap w) /\
    (forall name h c,
       HealthcareChartsManager.charts this !! name = Some (EChart h) ->
       chartHeap w !! h = Some c ->
       chartHeap w' !! h = Some (mark_destroyed c)) /\
    (forall h c,
       chartHeap w !! h = Some c ->
       chartHeap w' !! h = Some c \/ chartHeap w' !! h = Some (mark_destroyed c)) /\
    (HealthcareChartsManager.charts this = ∅ -> chartHeap w' = chartHeap w).
Proof.
  unfold HealthcareChartsManager.destroyCharts.
  unfold console_log at 1. rewrite bind_emit.
  unfold bind at 1. rewrite forEach_destroy_run.
  set (entries := HealthcareChartsManager.values this).
  set (w1 := add_console _ w).
  assert (Hstop : exists w',
    HealthcareChartsManager.stopAutoUpdate
      (HealthcareChartsManager.mk ∅ (HealthcareChartsManager.updateInterval this))
      (with_heap (destroy_entries (chartHeap w1) entries) w1)
    = (Normal (HealthcareChartsManager.mk ∅ None), w') /\
    document w' = document w /\
    chartHeap w' = destroy_entries (chartHeap w) entries).
  { unfold HealthcareChartsManager.stopAutoUpdate; simpl.
    destruct (HealthcareChartsManager.updateInterval this);
      eexists; (split; [reflexivity|]); split; reflexivity. }
  destruct Hstop as (w' & Hrun & Hdoc & Hheap).
  exists w'. split; [exact Hrun|]. split; [exact Hdoc|]. rewrite Hheap.
  split; [apply destroy_entries_length|].
  split; [|split].
  - intros name h c Hreg Hc.
    rewrite (destroy_entries_hit entries _ h), Hc; [done|].
    by eapply values_elem.
  - intros h c Hc.
    destruct (destroy_entries_lookup entries (chartHeap w) h) as [-> | ->];
      rewrite Hc; auto.
  - intros Hempty. subst entries. unfold HealthcareChartsManager.values.
    by rewrite Hempty, map_to_list_empty.
Qed.

(** ** C2: creating the response time chart again *)

Lemma styleDataset_pure `{Runtime} dataset w :
  exists r, HealthcareChartsManager.styleDataset dataset w = (r, w).
Proof.
  unfold HealthcareChartsManager.styleDataset. run.
  destruct (get_prop dataset "borderColor"); eauto.
Qed.

Lemma mapM_styleDataset_pure `{Runtime} items w :
  exists r, mapM HealthcareChartsManager.styleDataset items w = (r, w).
Proof.
  induction items as [|d rest IH]; simpl; [by eexists|].
  unfold bind at 1. destruct (styleDataset_pure d w) as [[a|e] ->]; [|by eexists].
  unfold bind at 1. destruct IH as [[bs|e] ->]; by eexists.
Qed.

Ltac run_fetch :=
  match goal with
  | |- context [HealthcareAPIClient.fetchAPI ?n ?a ?e ?o ?W] =>
      let entries := fresh "entries" in
      let Hrun := fresh "Hrun" in
      destruct (fetchAPI_run n a e o W) as [entries Hrun];
      rewrite Hrun; clear Hrun;
      destruct (fetch_outcome n a e o)
  end.

Lemma createResponseTimeChart_run `{Runtime} net apiClient this w :
  exists this' w',
    HealthcareChartsManager.createResponseTimeChart net apiClient this w
      = (Normal this', w') /\
    document w' = document w /\
    ((this' = this /\ chartHeap w' = chartHeap w) \/
     (exists c,
        canvas c = "responseTimeChart" /\ destroyed c = false /\
        canvas_reuse_throws && existsb (live_on "responseTimeChart") (chartHeap w) = false /\
        chartHeap w' = (chartHeap w ++ [c])%list /\
        this' = HealthcareChartsManager.mk
                  (<["responseTime" := EChart (length (chartHeap w))]>
                     (HealthcareChartsManager.charts this))
                  (HealthcareChartsManager.updateInterval this))).
Proof.
  unfold HealthcareChartsManager.createResponseTimeChart,
    HealthcareAPIClient.getResponseTimeAnalytics.
  run. destruct (document w !! "responseTimeChart") as [el|]; run;
    [|by eauto 10].
  run_fetch; run; [|by eauto 10].
  unfold getContext2d. destruct (isCanvas el); run; [|by eauto 10].
  destruct (get_prop a "labels") as [|lbls]; [by eauto 10|].
  destruct (get_prop a "datasets") as [|raw]; [by eauto 10|].
  unfold HealthcareChartsManager.Array_map.
  destruct raw as [| | | | |items|]; run; try by eauto 10.
  match goal with
  | |- context [mapM _ items ?W] =>
      destruct (mapM_styleDataset_pure items W) as [[dsets|e] ->]
  end; [|by eauto 10].
  unfold new_Chart; simpl.
  destruct (canvas_reuse_throws && existsb _ (chartHeap w)) eqn:Hguard; simpl;
    [by eauto 10|].
  do 2 eexists. split; [reflexivity|]. split; [reflexivity|].
  right. eexists (mkChart _ _ _ _ _ _).
  repeat split; reflexivity.
Qed.




(** ** C7: the system health chart *)

Lemma createHealthStatusChart_run `{Runtime} net apiClient this w :
  exists this' w',
    HealthcareChartsManager.createHealthStatusChart net apiClient this w
      = (Normal this', w') /\
    ((this' = this /\ chartHeap w' = chartHeap w) \/
     (exists lbls dsets,
        chartHeap w'
          = (chartHeap w ++ [mkChart "healthStatusChart" bar lbls dsets
                               HealthcareChartsManager.healthStatus_options false])%list /\
        this' = HealthcareChartsManager.mk
                  (<["healthStatus" := EChart (length (chartHeap w))]>
                     (HealthcareChartsManager.charts this))
                  (HealthcareChartsManager.updateInterval this))).
Proof.
  unfold HealthcareChartsManager.createHealthStatusChart,
    HealthcareAPIClient.getSystemHealthAnalytics.
  run. destruct (document w !! "healthStatusChart") as [el|]; run;
    [|by eauto 10].
  run_fetch; run; [|by eauto 10].
  unfold getContext2d. destruct (isCanvas el); run; [|by eauto 10].
  destruct (get_prop a "labels") as [|lbls]; [by eauto 10|].
  destruct (get_prop a "data") as [|values]; [by eauto 10|].
  destruct (get_prop a "backgroundColor") as [|colors]; [by eauto 10|].
  unfold new_Chart; simpl.
  destruct (canvas_reuse_throws && existsb _ (chartHeap w)); simpl;
    [by eauto 10|].
  do 2 eexists. split; [reflexivity|]. right. by do 2 eexists.
Qed.


(** ** C6: the share of the total in the message volume tooltip *)

Lemma foldl_add_nums `{Runtime} (ds : list float) (acc : float) :
  foldl JS.add (Num acc) (Num <$> ds) = Num (foldl PrimFloat.add acc ds).
Proof.
  revert acc. induction ds as [|x ds IH]; intros acc; [reflexivity|].
  simpl. apply IH.
Qed.

Lemma label_shareOfTotal_numbers `{Runtime} (label : Value) (v : float)
    (d : list (string * Value)) (ds : list float) :
  obj_get "data" d = Arr (Num <$> ds) ->
  label_shareOfTotal (mkContext label (Num v) d)
  = inr (ToString (if truthy label then label else Str "") ++ ": "
           ++ Number_toString v ++ "% ("
           ++ toFixed (v / foldl PrimFloat.add 0%float ds * 100) 1 ++ "% of total)").
Proof.
  intros Hdata. unfold label_shareOfTotal; simpl.
  by rewrite Hdata, foldl_add_nums.
Qed.

(** The message volume step of [updateAllCharts], for a registry that
    holds the message volume chart only. *)
Lemma updateAllCharts_messageVolume `{Runtime} net apiClient random this w h c d rest body :
  HealthcareChartsManager.charts this = {["messageVolume" := EChart h]} ->
  chartHeap w !! h = Some c ->
  datasets c = d :: rest ->
  fetch_outcome net apiClient HealthcareAPIClient.analytics_messageVolume noOptions
    = Normal (Obj body) ->
  chartHeap (HealthcareChartsManager.updateAllCharts net apiClient random this w).2 !! h
  = Some (mkChart (canvas c) (type c) (labels c)
                  (obj_set "data" (obj_get "data" body) d :: rest)
                  (options c) (destroyed c)).
Proof.
  intros Hreg Hc Hds Hfetch.
  unfold HealthcareChartsManager.updateAllCharts, HealthcareChartsManager.chart_of,
    HealthcareAPIClient.getMessageVolumeAnalytics.
  rewrite Hreg.
  rewrite lookup_singleton_ne, lookup_singleton_eq by done.
  rewrite !lookup_singleton_ne by done.
  run.
  match goal with
  | |- context [HealthcareAPIClient.fetchAPI ?n ?a ?e ?o ?W] =>
      destruct (fetchAPI_run n a e o W) as [entries ->]
  end.
  rewrite Hfetch. run.
  unfold HealthcareChartsManager.setFirstDatasetData, getChart.
  cbn [get_prop]. run.
  rewrite Hc; simpl. rewrite Hds; simpl.
  rewrite list_lookup_alter_eq, Hc; simpl. by rewrite Hds.
Qed.



(** ** C1: a refresh cycle stops at the first failing query *)

Lemma bind_assoc {A B C} (m : M A) (f : A -> M B) (k : B -> M C) w :
  bind (bind m f) k w = bind m (fun a => bind (f a) k) w.
Proof. unfold bind. by destruct (m w) as [[a|e] w1]. Qed.

Lemma bind_fetchAPI {B} net this endpoint options (k : Value -> M B) w :
  exists entries,
    bind (HealthcareAPIClient.fetchAPI net this endpoint options) k w
    = match fetch_outcome net this endpoint options with
      | Normal v => k v (add_console entries w)
      | Throw e => (Throw e, add_console entries w)
      end.
Proof.
  unfold bind. destruct (fetchAPI_run net this endpoint options w) as [entries ->].
  exists entries. by destruct (fetch_outcome _ _ _ _).
Qed.

Lemma bind_prop_obj {B} props key (k : Value -> M B) w :
  bind (prop (Obj props) key) k w = k (obj_get key props) w.
Proof. reflexivity. Qed.

Lemma bind_hideLoading {B} id content (k : unit -> M B) w :
  bind (hideLoading id content) k w = k tt (shown id content w).
Proof.
  unfold hideLoading, shown, write. run.
  destruct (document w !! id) eqn:Hid; run.
  - reflexivity.
  - rewrite app_nil_r. f_equal. destruct w; simpl in *. f_equal.
    symmetry. apply map_eq. intros j. rewrite lookup_alter.
    case_decide; [subst; by rewrite Hid | done].
Qed.

Ltac cycle_fetch :=
  rewrite bind_assoc; unfold console_log at 1; rewrite bind_emit;
  match goal with
  | |- context [bind (HealthcareAPIClient.fetchAPI ?n ?a ?e ?o) ?k ?W] =>
      let entries := fresh "entries" in
      let Hrun := fresh "Hrun" in
      destruct (bind_fetchAPI n a e o k W) as [entries Hrun];
      rewrite Hrun; clear Hrun
  end.

Ltac cycle_writes :=
  repeat first [ rewrite bind_prop_obj | rewrite bind_hideLoading ].

Ltac start_cycle :=
  unfold fetched, endpoint in *;
  unfold MetricsRefreshManager.refreshAllMetrics;
  unfold console_log at 1; rewrite bind_emit; unfold try_catch;
  unfold HealthcareAPIClient.getFHIRMetrics, HealthcareAPIClient.getHL7Metrics,
    HealthcareAPIClient.getEpicMetrics, HealthcareAPIClient.getAzureMetrics.

Ltac cycle_query Hfetched := cycle_fetch; rewrite Hfetched; cycle_writes.

Lemma cycle_fails_at_FHIR `{Runtime} net apiClient w e :
  fetched net apiClient FHIR = Throw e ->
  document (MetricsRefreshManager.refreshAllMetrics net apiClient w).2 = document w.
Proof.
  intros Hfhir. start_cycle.
  cycle_query Hfhir. reflexivity.
Qed.

Lemma cycle_fails_at_HL7 `{Runtime} net apiClient w e p1 :
  fetched net apiClient FHIR = Normal (Obj p1) ->
  fetched net apiClient HL7 = Throw e ->
  document (MetricsRefreshManager.refreshAllMetrics net apiClient w).2
  = write_all (written FHIR p1) (document w).
Proof.
  intros Hfhir Hhl7. start_cycle.
  cycle_query Hfhir. cycle_query Hhl7. reflexivity.
Qed.

Lemma cycle_fails_at_Epic `{Runtime} net apiClient w e p1 p2 :
  fetched net apiClient FHIR = Normal (Obj p1) ->
  fetched net apiClient HL7 = Normal (Obj p2) ->
  fetched net apiClient Epic = Throw e ->
  document (MetricsRefreshManager.refreshAllMetrics net apiClient w).2
  = write_all (written FHIR p1 ++ written HL7 p2) (document w).
Proof.
  intros Hfhir Hhl7 Hepic. start_cycle.
  cycle_query Hfhir. cycle_query Hhl7. cycle_query Hepic. reflexivity.
Qed.

Lemma cycle_fails_at_Azure `{Runtime} net apiClient w e p1 p2 p3 :
  fetched net apiClient FHIR = Normal (Obj p1) ->
  fetched net apiClient HL7 = Normal (Obj p2) ->
  fetched net apiClient Epic = Normal (Obj p3) ->
  fetched net apiClient Azure = Throw e ->
  document (MetricsRefreshManager.refreshAllMetrics net apiClient w).2
  = write_all (written FHIR p1 ++ written HL7 p2 ++ written Epic p3) (document w).
Proof.
  intros Hfhir Hhl7 Hepic Hazure. start_cycle.
  cycle_query Hfhir. cycle_query Hhl7. cycle_query Hepic. cycle_query Hazure.
  reflexivity.
Qed.

Lemma write_all_lookup_notin items doc id :
  id ∉ items.*1 -> write_all items doc !! id = doc !! id.
Proof.
  revert doc. induction items as [|[id0 c0] rest IH]; intros doc Hnotin; [done|].
  simpl in *. apply not_elem_of_cons in Hnotin as [Hne Hrest].
  unfold write_all in *; simpl. rewrite IH by done.
  unfold write. by rewrite lookup_alter_ne.
Qed.

Lemma write_all_lookup_in items doc id content :
  NoDup items.*1 -> (id, content) ∈ items ->
  write_all items doc !! id
  = (fun el => mkElement (isCanvas el) content) <$> doc !! id.
Proof.
  revert doc. induction items as [|[id0 c0] rest IH]; intros doc Hnodup Hin;
    [by inv Hin|].
  simpl in Hnodup. apply NoDup_cons in Hnodup as [Hfresh Hnodup].
  apply elem_of_cons in Hin as [[= -> ->] | Hin].
  - change (write_all ((id0, c0) :: rest) doc)
      with (write_all rest (write id0 c0 doc)).
    rewrite write_all_lookup_notin by done.
    unfold write. by rewrite lookup_alter_eq.
  - change (write_all ((id0, c0) :: rest) doc)
      with (write_all rest (write id0 c0 doc)).
    rewrite IH by done.
    assert (id0 <> id) as Hne.
    { intros ->. apply Hfresh. apply list_elem_of_fmap. by exists (id, content). }
    unfold write. by rewrite lookup_alter_ne.
Qed.


(** [Hin : id ∈ [a; b; ...]]: one goal for each element. *)
Ltac one_of Hin :=
  cbn [widgets alerts] in Hin;
  repeat (apply elem_of_cons in Hin as [-> | Hin]);
  [..| by apply elem_of_nil in Hin].

(** [Hin : a ∈ [b; c; ...]] for distinct strings. *)
Ltac elim_absent Hin :=
  cbn [widgets alerts] in Hin;
  repeat (apply elem_of_cons in Hin as [Hin | Hin]; [discriminate Hin|]);
  by apply elem_of_nil in Hin.



(** * Further properties of the two modules *)

(** ** The timers of the two schedulers *)

(** X1. Calling [start] twice registers one timer: the first call
    leaves the manager running, and on a running manager [start] only
    reports that it is already running, leaving the manager, the page,
    the charts and the timers as they are. *)
Theorem start_twice_registers_once (this : MetricsRefreshManager.t) (w : World) :
  exists this1 w1,
    MetricsRefreshManager.start this w = (Normal this1, w1) /\
    is_Some (MetricsRefreshManager.intervalId this1) /\
    MetricsRefreshManager.intervalMs this1 = MetricsRefreshManager.intervalMs this /\
    MetricsRefreshManager.start this1 w1
    = (Normal this1,
       add_console [mkLogEntry LevelLog "MetricsRefreshManager already running" []] w1).
Proof.
  destruct this as [ms [id|]]; do 2 eexists; (split; [reflexivity|]);
    (split; [by eexists|]); split; reflexivity.
Qed.

(** X2. Starting an idle refresh manager registers exactly one timer,
    under the next free identifier, that runs [refreshAllMetrics] at
    the configured interval; stopping it afterwards removes that timer
    again and returns the manager to its idle state, so that the
    timers are as they were. *)
Theorem start_then_stop_restores_timers (ms : float) (w : World) :
  timers w !! nextTimer w = None ->
  exists running w1 w2,
    MetricsRefreshManager.start (MetricsRefreshManager.mk ms None) w
      = (Normal running, w1) /\
    MetricsRefreshManager.intervalId running = Some (nextTimer w) /\
    timers w1 = <[nextTimer w := (RunRefreshAllMetrics, ms)]> (timers w) /\
    MetricsRefreshManager.stop running w1
      = (Normal (MetricsRefreshManager.mk ms None), w2) /\
    timers w2 = timers w /\
    document w2 = document w /\ chartHeap w2 = chartHeap w.
Proof.
  intros Hfree. do 3 eexists.
  split; [reflexivity|]. split; [reflexivity|]. split; [reflexivity|].
  split; [reflexivity|]. simpl.
  split; [by apply delete_insert_id|]. by split.
Qed.

Lemma start_then_stop_restores_timers_witness :
  exists running w1 w2,
    MetricsRefreshManager.start (MetricsRefreshManager.mk 30000 None) Sample.world
      = (Normal running, w1) /\
    MetricsRefreshManager.intervalId running = Some 1%positive /\
    timers w1 = <[1%positive := (RunRefreshAllMetrics, 30000%float)]> ∅ /\
    MetricsRefreshManager.stop running w1
      = (Normal (MetricsRefreshManager.mk 30000 None), w2) /\
    timers w2 = ∅ /\
    document w2 = document Sample.world /\ chartHeap w2 = chartHeap Sample.world.
Proof.
  apply (start_then_stop_restores_timers 30000 Sample.world). reflexivity.
Defined.

(** X3. The charts manager keeps at most one update timer, always at
    one minute: [startAutoUpdate] on an idle manager registers a timer
    that runs [updateAllCharts] every 60000 ms, a second
    [startAutoUpdate] only logs, and [stopAutoUpdate] removes the timer
    and leaves the registry of charts as it is. *)
Theorem autoUpdate_timer_round_trip (registry : gmap string Entry) (w : World) :
  timers w !! nextTimer w = None ->
  exists running w1 w2,
    HealthcareChartsManager.startAutoUpdate (HealthcareChartsManager.mk registry None) w
      = (Normal running, w1) /\
    running = HealthcareChartsManager.mk registry (Some (nextTimer w)) /\
    timers w1 = <[nextTimer w := (RunUpdateAllCharts, 60000%float)]> (timers w) /\
    HealthcareChartsManager.startAutoUpdate running w1
      = (Normal running,
         add_console [mkLogEntry LevelLog "Chart auto-update already running" []] w1) /\
    HealthcareChartsManager.stopAutoUpdate running w1
      = (Normal (HealthcareChartsManager.mk registry None), w2) /\
    timers w2 = timers w /\ chartHeap w2 = chartHeap w.
Proof.
  intros Hfree. do 3 eexists.
  split; [reflexivity|]. split; [reflexivity|]. split; [reflexivity|].
  split; [reflexivity|]. split; [reflexivity|]. simpl.
  split; [by apply delete_insert_id|]. reflexivity.
Qed.

Lemma autoUpdate_timer_round_trip_witness :
  exists running w1 w2,
    HealthcareChartsManager.startAutoUpdate (HealthcareChartsManager.mk ∅ None) Sample.world
      = (Normal running, w1) /\
    running = HealthcareChartsManager.mk ∅ (Some 1%positive) /\
    timers w1 = <[1%positive := (RunUpdateAllCharts, 60000%float)]> ∅ /\
    HealthcareChartsManager.startAutoUpdate running w1
      = (Normal running,
         add_console [mkLogEntry LevelLog "Chart auto-update already running" []] w1) /\
    HealthcareChartsManager.stopAutoUpdate running w1
      = (Normal (HealthcareChartsManager.mk ∅ None), w2) /\
    timers w2 = ∅ /\ chartHeap w2 = chartHeap Sample.world.
Proof.
  apply (autoUpdate_timer_round_trip ∅ Sample.world). reflexivity.
Defined.

(** ** The failures of the gateway client *)

(** X4. On a response whose status is outside 200..299, [fetchAPI]
    throws the error "API request failed" carrying the status and the
    status text; it writes the request line, the raw body with the
    status and the error to the console and nothing else anywhere; the
    body is never parsed, so the outcome is the same whatever JSON it
    holds. *)
Theorem fetchAPI_reports_http_errors (net : Network) (this : HealthcareAPIClient.t)
    (endpoint : string) (w : World) (r : Response) :
  net (mkRequest (HealthcareAPIClient.baseURL this ++ endpoint) "GET" None) = Responded r ->
  ok r = false ->
  HealthcareAPIClient.fetchAPI net this endpoint noOptions w
  = (Throw (ApiRequestFailed (status r) (statusText r)),
     add_console
       [mkLogEntry LevelLog
          ("API Request: GET " ++ HealthcareAPIClient.baseURL this ++ endpoint) [];
        mkLogEntry LevelError
          ("API Error " ++ nat_to_string (status r) ++ ": " ++ text r) [];
        mkLogEntry LevelError ("API Client Error for " ++ endpoint ++ ":")
          [ArgError (ApiRequestFailed (status r) (statusText r))]]
       w).
Proof.
  intros Hnet Hok. unfold HealthcareAPIClient.fetchAPI. simpl.
  rewrite Hnet, Hok. run. by rewrite <- !app_assoc.
Qed.

Lemma fetchAPI_reports_http_errors_witness :
  let down := fun _ : Request =>
    Responded (mkResponse 503 "Service Unavailable" "maintenance" (Some (Obj []))) in
  HealthcareAPIClient.fetchAPI down Sample.apiClient HealthcareAPIClient.fhir_metrics
    noOptions Sample.world
  = (Throw (ApiRequestFailed 503 "Service Unavailable"),
     add_console
       [mkLogEntry LevelLog "API Request: GET /api/fhir/metrics" [];
        mkLogEntry LevelError "API Error 503: maintenance" [];
        mkLogEntry LevelError "API Client Error for /api/fhir/metrics:"
          [ArgError (ApiRequestFailed 503 "Service Unavailable")]]
       Sample.world).
Proof.
  intros down.
  apply (fetchAPI_reports_http_errors down Sample.apiClient
           HealthcareAPIClient.fhir_metrics Sample.world
           (mkResponse 503 "Service Unavailable" "maintenance" (Some (Obj []))));
    reflexivity.
Defined.

(** X5. When the fetch itself rejects, or a 2xx response carries a
    body that is not JSON, [fetchAPI] rethrows that very error after
    logging it once; the only trace is the request line and the error
    on the console. *)
Theorem fetchAPI_rethrows (net : Network) (this : HealthcareAPIClient.t)
    (endpoint : string) (w : World) (e : Error) :
  (net (mkRequest (HealthcareAPIClient.baseURL this ++ endpoint) "GET" None) = Rejected /\
   e = NetworkError) \/
  (exists r,
     net (mkRequest (HealthcareAPIClient.baseURL this ++ endpoint) "GET" None)
       = Responded r /\
     ok r = true /\ json r = None /\ e = SyntaxError) ->
  HealthcareAPIClient.fetchAPI net this endpoint noOptions w
  = (Throw e,
     add_console
       [mkLogEntry LevelLog
          ("API Request: GET " ++ HealthcareAPIClient.baseURL this ++ endpoint) [];
        mkLogEntry LevelError ("API Client Error for " ++ endpoint ++ ":") [ArgError e]]
       w).
Proof.
  unfold HealthcareAPIClient.fetchAPI. simpl.
  intros [[Hnet ->] | (r & Hnet & Hok & Hjson & ->)]; rewrite Hnet.
  - run. by rewrite <- !app_assoc.
  - rewrite Hok, Hjson. run. by rewrite <- !app_assoc.
Qed.

Lemma fetchAPI_rethrows_witness :
  HealthcareAPIClient.fetchAPI (Sample.failing HealthcareAPIClient.hl7_metrics)
    Sample.apiClient HealthcareAPIClient.hl7_metrics noOptions Sample.world
  = (Throw NetworkError,
     add_console
       [mkLogEntry LevelLog "API Request: GET /api/hl7/metrics" [];
        mkLogEntry LevelError "API Client Error for /api/hl7/metrics:"
          [ArgError NetworkError]]
       Sample.world).
Proof.
  apply (fetchAPI_rethrows (Sample.failing HealthcareAPIClient.hl7_metrics)
           Sample.apiClient HealthcareAPIClient.hl7_metrics Sample.world NetworkError).
  left. split; reflexivity.
Defined.

(** ** Which endpoints a cycle contacts *)

Lemma fetchAPI_local net net' this endpoint options :
  net (mkRequest (HealthcareAPIClient.baseURL this ++ endpoint)
                 (default "GET" (optMethod options)) (optBody options))
  = net' (mkRequest (HealthcareAPIClient.baseURL this ++ endpoint)
                    (default "GET" (optMethod options)) (optBody options)) ->
  HealthcareAPIClient.fetchAPI net this endpoint options
  = HealthcareAPIClient.fetchAPI net' this endpoint options.
Proof.
  intros Hsame. unfold HealthcareAPIClient.fetchAPI. cbv zeta. by rewrite Hsame.
Qed.

(** X6. A refresh cycle sends four requests and no other: plain [GET]s
    of the FHIR, HL7, Epic and Azure metrics under the client's base
    address. Two services that answer these four requests alike give
    the same cycle, however they differ elsewhere. *)
Theorem refreshAllMetrics_contacts_four_endpoints `{Runtime} (net net' : Network)
    (apiClient : HealthcareAPIClient.t) (w : World) :
  (forall q,
     net (mkRequest (HealthcareAPIClient.baseURL apiClient ++ endpoint q) "GET" None)
     = net' (mkRequest (HealthcareAPIClient.baseURL apiClient ++ endpoint q) "GET" None)) ->
  MetricsRefreshManager.refreshAllMetrics net apiClient w
  = MetricsRefreshManager.refreshAllMetrics net' apiClient w.
Proof.
  intros Hsame.
  unfold MetricsRefreshManager.refreshAllMetrics,
    HealthcareAPIClient.getFHIRMetrics, HealthcareAPIClient.getHL7Metrics,
    HealthcareAPIClient.getEpicMetrics, HealthcareAPIClient.getAzureMetrics.
  rewrite (fetchAPI_local net net' apiClient HealthcareAPIClient.fhir_metrics noOptions
             (Hsame FHIR)).
  rewrite (fetchAPI_local net net' apiClient HealthcareAPIClient.hl7_metrics noOptions
             (Hsame HL7)).
  rewrite (fetchAPI_local net net' apiClient HealthcareAPIClient.epic_metrics noOptions
             (Hsame Epic)).
  rewrite (fetchAPI_local net net' apiClient HealthcareAPIClient.azure_metrics noOptions
             (Hsame Azure)).
  reflexivity.
Qed.

Lemma refreshAllMetrics_contacts_four_endpoints_witness :
  MetricsRefreshManager.refreshAllMetrics (H := Sample.runtime true) Sample.healthy
    Sample.apiClient Sample.world
  = MetricsRefreshManager.refreshAllMetrics (H := Sample.runtime true)
      (Sample.failing HealthcareAPIClient.analytics_systemHealth)
      Sample.apiClient Sample.world.
Proof.
  apply (refreshAllMetrics_contacts_four_endpoints (H := Sample.runtime true)
           Sample.healthy (Sample.failing HealthcareAPIClient.analytics_systemHealth)
           Sample.apiClient Sample.world).
  intros []; reflexivity.
Defined.

(** X7. The charts talk to the three analytics endpoints only: two
    services that answer the plain [GET]s of the response times, the
    message volume and the system health alike give the same
    [initializeCharts] and the same [updateAllCharts]. *)
Theorem charts_contact_three_endpoints `{Runtime} (net net' : Network)
    (apiClient : HealthcareAPIClient.t) (random : nat -> float)
    (this : HealthcareChartsManager.t) (w : World) :
  (forall path,
     path ∈ [HealthcareAPIClient.analytics_responseTimes;
             HealthcareAPIClient.analytics_messageVolume;
             HealthcareAPIClient.analytics_systemHealth] ->
     net (mkRequest (HealthcareAPIClient.baseURL apiClient ++ path) "GET" None)
     = net' (mkRequest (HealthcareAPIClient.baseURL apiClient ++ path) "GET" None)) ->
  HealthcareChartsManager.initializeCharts net apiClient this w
  = HealthcareChartsManager.initializeCharts net' apiClient this w /\
  HealthcareChartsManager.updateAllCharts net apiClient random this w
  = HealthcareChartsManager.updateAllCharts net' apiClient random this w.
Proof.
  intros Hsame.
  assert (Hrt := fetchAPI_local net net' apiClient _ noOptions
                   (Hsame HealthcareAPIClient.analytics_responseTimes
                      ltac:(apply list_elem_of_here))).
  assert (Hmv := fetchAPI_local net net' apiClient _ noOptions
                   (Hsame HealthcareAPIClient.analytics_messageVolume
                      ltac:(apply list_elem_of_further, list_elem_of_here))).
  assert (Hsh := fetchAPI_local net net' apiClient _ noOptions
                   (Hsame HealthcareAPIClient.analytics_systemHealth
                      ltac:(do 2 apply list_elem_of_further; apply list_elem_of_here))).
  split.
  - unfold HealthcareChartsManager.initializeCharts,
      HealthcareChartsManager.createResponseTimeChart,
      HealthcareChartsManager.createMessageVolumeChart,
      HealthcareChartsManager.createHealthStatusChart,
      HealthcareAPIClient.getResponseTimeAnalytics,
      HealthcareAPIClient.getMessageVolumeAnalytics,
      HealthcareAPIClient.getSystemHealthAnalytics.
    by rewrite Hrt, Hmv, Hsh.
  - unfold HealthcareChartsManager.updateAllCharts,
      HealthcareAPIClient.getResponseTimeAnalytics,
      HealthcareAPIClient.getMessageVolumeAnalytics,
      HealthcareAPIClient.getSystemHealthAnalytics.
    by rewrite Hrt, Hmv, Hsh.
Qed.

Lemma charts_contact_three_endpoints_witness :
  let quiet := Sample.failing HealthcareAPIClient.fhir_metrics in
  let manager := HealthcareChartsManager.mk ∅ None in
  HealthcareChartsManager.initializeCharts (H := Sample.runtime true) Sample.healthy
    Sample.apiClient manager Sample.world
  = HealthcareChartsManager.initializeCharts (H := Sample.runtime true) quiet
      Sample.apiClient manager Sample.world.
Proof.
  intros quiet manager.
  apply (charts_contact_three_endpoints (H := Sample.runtime true) Sample.healthy quiet
           Sample.apiClient (fun _ => 0%float) manager Sample.world).
  intros path Hpath.
  repeat (apply elem_of_cons in Hpath as [-> | Hpath]; [reflexivity|]).
  by apply elem_of_nil in Hpath.
Defined.

(** ** Creating the charts *)

Ltac unchanged_creation :=
  do 2 eexists; split; [reflexivity|]; repeat (split; [reflexivity|]); by left.

Ltac finish_creation :=
  unfold new_Chart; simpl;
  match goal with
  | |- context [canvas_reuse_throws && existsb ?f (chartHeap ?w)] =>
      destruct (canvas_reuse_throws && existsb f (chartHeap w)); simpl
  end;
  [ unchanged_creation
  | do 2 eexists; split; [reflexivity|]; repeat (split; [reflexivity|]);
    right; eexists (mkChart _ _ _ _ _ _); repeat split; reflexivity ].

Lemma createResponseTimeChart_effect `{Runtime} net apiClient this w :
  creation_effect "responseTimeChart" "responseTime" this w
    (HealthcareChartsManager.createResponseTimeChart net apiClient this w).
Proof.
  unfold creation_effect, HealthcareChartsManager.createResponseTimeChart,
    HealthcareAPIClient.getResponseTimeAnalytics.
  run. destruct (document w !! "responseTimeChart") as [el|]; run;
    [|unchanged_creation].
  run_fetch; run; [|unchanged_creation].
  unfold getContext2d. destruct (isCanvas el); run; [|unchanged_creation].
  destruct (get_prop a "labels") as [|lbls]; [unchanged_creation|].
  destruct (get_prop a "datasets") as [|raw]; [unchanged_creation|].
  unfold HealthcareChartsManager.Array_map.
  destruct raw as [| | | | |items|]; run; try unchanged_creation.
  match goal with
  | |- context [mapM _ items ?W] =>
      destruct (mapM_styleDataset_pure items W) as [[dsets|e] ->]
  end; [|unchanged_creation].
  finish_creation.
Qed.

Lemma createMessageVolumeChart_effect `{Runtime} net apiClient this w :
  creation_effect "messageVolumeChart" "messageVolume" this w
    (HealthcareChartsManager.createMessageVolumeChart net apiClient this w).
Proof.
  unfold creation_effect, HealthcareChartsManager.createMessageVolumeChart,
    HealthcareAPIClient.getMessageVolumeAnalytics.
  run. destruct (document w !! "messageVolumeChart") as [el|]; run;
    [|unchanged_creation].
  run_fetch; run; [|unchanged_creation].
  unfold getContext2d. destruct (isCanvas el); run; [|unchanged_creation].
  destruct (get_prop a "labels") as [|lbls]; [unchanged_creation|].
  destruct (get_prop a "data") as [|values]; [unchanged_creation|].
  destruct (get_prop a "backgroundColor") as [|colors]; [unchanged_creation|].
  finish_creation.
Qed.

Lemma createHealthStatusChart_effect `{Runtime} net apiClient this w :
  creation_effect "healthStatusChart" "healthStatus" this w
    (HealthcareChartsManager.createHealthStatusChart net apiClient this w).
Proof.
  unfold creation_effect, HealthcareChartsManager.createHealthStatusChart,
    HealthcareAPIClient.getSystemHealthAnalytics.
  run. destruct (document w !! "healthStatusChart") as [el|]; run;
    [|unchanged_creation].
  run_fetch; run; [|unchanged_creation].
  unfold getContext2d. destruct (isCanvas el); run; [|unchanged_creation].
  destruct (get_prop a "labels") as [|lbls]; [unchanged_creation|].
  destruct (get_prop a "data") as [|values]; [unchanged_creation|].
  destruct (get_prop a "backgroundColor") as [|colors]; [unchanged_creation|].
  finish_creation.
Qed.

Lemma createFHIRTrendsChart_effect `{Runtime} this w :
  creation_effect "fhirTrendsChart" "fhirTrends" this w
    (HealthcareChartsManager.createFHIRTrendsChart this w).
Proof.
  unfold creation_effect, HealthcareChartsManager.createFHIRTrendsChart.
  run. destruct (document w !! "fhirTrendsChart") as [el|]; run;
    [|unchanged_creation].
  unfold getContext2d. destruct (isCanvas el); run; [|unchanged_creation].
  finish_creation.
Qed.

Lemma creation_effect_summary canvasId name this w r :
  creation_effect canvasId name this w r ->
  exists this' w',
    r = (Normal this', w') /\
    document w' = document w /\ timers w' = timers w /\ nextTimer w' = nextTimer w /\
    HealthcareChartsManager.updateInterval this'
      = HealthcareChartsManager.updateInterval this /\
    chartHeap w `prefix_of` chartHeap w' /\
    length (chartHeap w') <= S (length (chartHeap w)).
Proof.
  intros (this' & w' & -> & Hdoc & Htimers & Hnext & Hcases).
  exists this', w'. repeat (split; [done|]).
  destruct Hcases as [[-> ->] | (c & _ & _ & -> & ->)].
  - split; [done|]. split; [done | lia].
  - split; [done|]. split; [by apply prefix_app_r|].
    rewrite length_app; simpl. lia.
Qed.

(** X8. [initializeCharts] always completes normally and always leaves
    the automatic update running, whichever charts could be created:
    on an idle manager it registers the one-minute timer under the next
    free identifier, on a running one it keeps the timer there is. It
    changes no element of the page, leaves every chart that existed
    before as it was, and adds at most four charts. *)
Theorem initializeCharts_always_starts_updates `{Runtime} (net : Network)
    (apiClient : HealthcareAPIClient.t) (this : HealthcareChartsManager.t) (w : World) :
  exists this' w',
    HealthcareChartsManager.initializeCharts net apiClient this w = (Normal this', w') /\
    document w' = document w /\
    chartHeap w `prefix_of` chartHeap w' /\
    length (chartHeap w') <= length (chartHeap w) + 4 /\
    match HealthcareChartsManager.updateInterval this with
    | None =>
        HealthcareChartsManager.updateInterval this' = Some (nextTimer w) /\
        timers w' = <[nextTimer w := (RunUpdateAllCharts, 60000%float)]> (timers w)
    | Some id =>
        HealthcareChartsManager.updateInterval this' = Some id /\
        timers w' = timers w
    end.
Proof.
  unfold HealthcareChartsManager.initializeCharts.
  unfold console_log at 1. rewrite bind_emit. unfold try_catch.
  set (w0 := add_console _ w).
  unfold bind at 1.
  destruct (creation_effect_summary _ _ _ _ _
              (createResponseTimeChart_effect net apiClient this w0))
    as (t1 & w1 & -> & Hd1 & Ht1 & Hn1 & Hu1 & Hp1 & Hl1).
  unfold bind at 1.
  destruct (creation_effect_summary _ _ _ _ _
              (createMessageVolumeChart_effect net apiClient t1 w1))
    as (t2 & w2 & -> & Hd2 & Ht2 & Hn2 & Hu2 & Hp2 & Hl2).
  unfold bind at 1.
  destruct (creation_effect_summary _ _ _ _ _
              (createHealthStatusChart_effect net apiClient t2 w2))
    as (t3 & w3 & -> & Hd3 & Ht3 & Hn3 & Hu3 & Hp3 & Hl3).
  unfold bind at 1.
  destruct (creation_effect_summary _ _ _ _ _ (createFHIRTrendsChart_effect t3 w3))
    as (t4 & w4 & -> & Hd4 & Ht4 & Hn4 & Hu4 & Hp4 & Hl4).
  unfold console_log at 1. rewrite bind_emit.
  assert (Hu : HealthcareChartsManager.updateInterval t4
               = HealthcareChartsManager.updateInterval this) by congruence.
  assert (Hd : document w4 = document w) by (rewrite Hd4, Hd3, Hd2, Hd1; done).
  assert (Ht : timers w4 = timers w) by (rewrite Ht4, Ht3, Ht2, Ht1; done).
  assert (Hn : nextTimer w4 = nextTimer w) by (rewrite Hn4, Hn3, Hn2, Hn1; done).
  assert (Hp : chartHeap w `prefix_of` chartHeap w4).
  { change (chartHeap w) with (chartHeap w0). by repeat (etrans; [eassumption|]). }
  assert (Hl : length (chartHeap w4) <= length (chartHeap w) + 4).
  { change (chartHeap w) with (chartHeap w0). lia. }
  unfold HealthcareChartsManager.startAutoUpdate. rewrite Hu.
  destruct (HealthcareChartsManager.updateInterval this) as [id|];
    do 2 eexists; (split; [reflexivity|]); simpl;
    rewrite ?Hd, ?Ht, ?Hn; by repeat split.
Qed.

(** X9. On a page that has none of the four canvases, each creation
    only warns that its canvas was not found: no request is sent, no
    chart is created and the manager is unchanged. [initializeCharts]
    then amounts to its six console lines followed by
    [startAutoUpdate]. *)
Theorem charts_skip_missing_canvases `{Runtime} (net : Network)
    (apiClient : HealthcareAPIClient.t) (this : HealthcareChartsManager.t) (w : World) :
  (forall id, id ∈ chartCanvases -> document w !! id = None) ->
  HealthcareChartsManager.createResponseTimeChart net apiClient this w
    = (Normal this,
       add_console [mkLogEntry LevelWarn "Response time chart canvas not found" []] w) /\
  HealthcareChartsManager.createMessageVolumeChart net apiClient this w
    = (Normal this,
       add_console [mkLogEntry LevelWarn "Message volume chart canvas not found" []] w) /\
  HealthcareChartsManager.createHealthStatusChart net apiClient this w
    = (Normal this,
       add_console [mkLogEntry LevelWarn "Health status chart canvas not found" []] w) /\
  HealthcareChartsManager.createFHIRTrendsChart this w
    = (Normal this,
       add_console [mkLogEntry LevelWarn "FHIR trends chart canvas not found" []] w) /\
  HealthcareChartsManager.initializeCharts net apiClient this w
    = HealthcareChartsManager.startAutoUpdate this
        (add_console
           [mkLogEntry LevelLog "Initializing healthcare charts..." [];
            mkLogEntry LevelWarn "Response time chart canvas not found" [];
            mkLogEntry LevelWarn "Message volume chart canvas not found" [];
            mkLogEntry LevelWarn "Health status chart canvas not found" [];
            mkLogEntry LevelWarn "FHIR trends chart canvas not found" [];
            mkLogEntry LevelLog "All healthcare charts initialized successfully" []]
           w).
Proof.
  intros Hnone.
  assert (H1 : document w !! "responseTimeChart" = None)
    by (apply Hnone, list_elem_of_here).
  assert (H2 : document w !! "messageVolumeChart" = None)
    by (apply Hnone, list_elem_of_further, list_elem_of_here).
  assert (H3 : document w !! "healthStatusChart" = None)
    by (apply Hnone; do 2 apply list_elem_of_further; apply list_elem_of_here).
  assert (H4 : document w !! "fhirTrendsChart" = None)
    by (apply Hnone; do 3 apply list_elem_of_further; apply list_elem_of_here).
  repeat split.
  - unfold HealthcareChartsManager.createResponseTimeChart. run. by rewrite H1.
  - unfold HealthcareChartsManager.createMessageVolumeChart. run. by rewrite H2.
  - unfold HealthcareChartsManager.createHealthStatusChart. run. by rewrite H3.
  - unfold HealthcareChartsManager.createFHIRTrendsChart. run. by rewrite H4.
  - unfold HealthcareChartsManager.initializeCharts,
      HealthcareChartsManager.createResponseTimeChart,
      HealthcareChartsManager.createMessageVolumeChart,
      HealthcareChartsManager.createHealthStatusChart,
      HealthcareChartsManager.createFHIRTrendsChart.
    run. rewrite H1. run. rewrite H2. run. rewrite H3. run. rewrite H4. run.
    rewrite <- !app_assoc. simpl.
    unfold HealthcareChartsManager.startAutoUpdate.
    destruct (HealthcareChartsManager.updateInterval this); reflexivity.
Qed.

Lemma charts_skip_missing_canvases_witness :
  HealthcareChartsManager.initializeCharts (H := Sample.runtime true) Sample.healthy
    Sample.apiClient (HealthcareChartsManager.mk ∅ None)
    (mkWorld ∅ [] [] ∅ 1%positive)
  = HealthcareChartsManager.startAutoUpdate (HealthcareChartsManager.mk ∅ None)
      (add_console
         [mkLogEntry LevelLog "Initializing healthcare charts..." [];
          mkLogEntry LevelWarn "Response time chart canvas not found" [];
          mkLogEntry LevelWarn "Message volume chart canvas not found" [];
          mkLogEntry LevelWarn "Health status chart canvas not found" [];
          mkLogEntry LevelWarn "FHIR trends chart canvas not found" [];
          mkLogEntry LevelLog "All healthcare charts initialized successfully" []]
         (mkWorld ∅ [] [] ∅ 1%positive)).
Proof.
  apply (charts_skip_missing_canvases (H := Sample.runtime true) Sample.healthy
           Sample.apiClient (HealthcareChartsManager.mk ∅ None)
           (mkWorld ∅ [] [] ∅ 1%positive)).
  intros id _. reflexivity.
Defined.

(** ** After the charts are destroyed *)

Lemma destroyCharts_result this w :
  exists w', HealthcareChartsManager.destroyCharts this w
             = (Normal (HealthcareChartsManager.mk ∅ None), w').
Proof.
  unfold HealthcareChartsManager.destroyCharts.
  unfold console_log at 1. rewrite bind_emit.
  unfold bind at 1. rewrite forEach_destroy_run.
  unfold HealthcareChartsManager.stopAutoUpdate; simpl.
  destruct (HealthcareChartsManager.updateInterval this); by eexists.
Qed.

Lemma values_empty ui :
  HealthcareChartsManager.values (HealthcareChartsManager.mk ∅ ui) = [].
Proof.
  unfold HealthcareChartsManager.values; simpl. by rewrite map_to_list_empty.
Qed.

(** X10. Once [destroyCharts] has run, the manager has an empty
    registry and no timer, and whatever comes late is harmless: an
    [updateAllCharts] cycle that fires afterwards sends no request and
    touches no chart, a resize does nothing, and a second
    [destroyCharts] destroys nothing; each only writes its console
    lines. *)
Theorem late_calls_after_destroy_are_inert (net : Network)
    (apiClient : HealthcareAPIClient.t) (random : nat -> float)
    (this : HealthcareChartsManager.t) (w : World) :
  let idle := HealthcareChartsManager.mk ∅ None in
  exists w',
    HealthcareChartsManager.destroyCharts this w = (Normal idle, w') /\
    HealthcareChartsManager.updateAllCharts net apiClient random idle w'
      = (Normal idle,
         add_console [mkLogEntry LevelLog "Updating all charts with new data..." [];
                      mkLogEntry LevelLog "All charts updated successfully" []] w') /\
    HealthcareChartsManager.resizeCharts idle w'
      = (Normal tt, add_console [mkLogEntry LevelLog "Resizing all charts..." []] w') /\
    HealthcareChartsManager.destroyCharts idle w'
      = (Normal idle, add_console [mkLogEntry LevelLog "Destroying all charts..." []] w').
Proof.
  intros idle. destruct (destroyCharts_result this w) as [w' Hrun].
  exists w'. split; [exact Hrun|]. split; [|split].
  - unfold HealthcareChartsManager.updateAllCharts, HealthcareChartsManager.chart_of.
    subst idle; simpl. rewrite !lookup_empty. run. by rewrite <- app_assoc.
  - unfold HealthcareChartsManager.resizeCharts. subst idle.
    rewrite values_empty. reflexivity.
  - unfold HealthcareChartsManager.destroyCharts. subst idle.
    rewrite values_empty. run. by destruct w'.
Qed.

(** ** Steps on the whole world *)

Section WorldSteps.
Context (R : relation World) `{!PreOrder R} `{!ConsoleBlind R}.

Lemma world_step_ret {A} (a : A) : world_step R (ret a).
Proof. intros w. reflexivity. Qed.

Lemma world_step_throw {A} e : world_step R (@throw A e).
Proof. intros w. reflexivity. Qed.

Lemma world_step_lift {A} (r : Error + A) : world_step R (lift r).
Proof. destruct r; [apply world_step_throw | apply world_step_ret]. Qed.

Lemma world_step_prop v k : world_step R (prop v k).
Proof. apply world_step_lift. Qed.

Lemma world_step_emit l msg args : world_step R (emit l msg args).
Proof. intros w. apply console_blind. Qed.

Lemma world_step_bind {A B} (m : M A) (k : A -> M B) :
  world_step R m -> (forall a, world_step R (k a)) -> world_step R (bind m k).
Proof.
  intros Hm Hk w. unfold bind. specialize (Hm w).
  destruct (m w) as [[a|e] w1]; simpl in *; [|done].
  etrans; [exact Hm | apply Hk].
Qed.

Lemma world_step_try_catch {A} (body : M A) (handler : Error -> M A) :
  world_step R body -> (forall e, world_step R (handler e)) ->
  world_step R (try_catch body handler).
Proof.
  intros Hm Hk w. unfold try_catch. specialize (Hm w).
  destruct (body w) as [[a|e] w1]; simpl in *; [done|].
  etrans; [exact Hm | apply Hk].
Qed.

Lemma world_step_forEach {A} (l : list A) (f : A -> M unit) :
  (forall a, a ∈ l -> world_step R (f a)) -> world_step R (forEach l f).
Proof.
  induction l as [|a l IH]; intros Hf; simpl.
  - apply world_step_ret.
  - apply world_step_bind; [apply Hf, list_elem_of_here | intros _].
    apply IH. intros b Hb. by apply Hf, list_elem_of_further.
Qed.

Lemma world_step_fetchAPI net this endpoint options :
  world_step R (HealthcareAPIClient.fetchAPI net this endpoint options).
Proof.
  intros w. destruct (fetchAPI_run net this endpoint options w) as [entries ->].
  apply console_blind.
Qed.

End WorldSteps.

#[local] Instance writes_only_preorder ids : PreOrder (writes_only ids).
Proof.
  split.
  - intros w. by repeat split.
  - intros w1 w2 w3 (Ht & Hn & Hh & Hd) (Ht2 & Hn2 & Hh2 & Hd2).
    repeat split; try congruence.
    + destruct (Hd id) as [<- _]. by destruct (Hd2 id) as [<- _].
    + intros Hid. destruct (Hd id) as [_ Hk]. destruct (Hd2 id) as [_ Hk2].
      by rewrite Hk2, Hk.
Qed.

#[local] Instance writes_only_console_blind ids : ConsoleBlind (writes_only ids).
Proof. intros w entries. by repeat split. Qed.

Lemma write_lookup id content doc id' :
  (isCanvas <$> write id content doc !! id') = (isCanvas <$> doc !! id') /\
  (id' <> id -> write id content doc !! id' = doc !! id').
Proof.
  unfold write. split.
  - rewrite lookup_alter. case_decide; [subst|done]. by destruct (doc !! id').
  - intros Hne. by rewrite lookup_alter_ne.
Qed.

Lemma world_step_hideLoading ids id content :
  id ∈ ids -> world_step (writes_only ids) (hideLoading id content).
Proof.
  intros Hin w.
  pose proof (bind_hideLoading id content (fun _ => ret tt) w) as Hrun.
  unfold bind, ret in Hrun. destruct (hideLoading id content w) as [[[]|e] w1];
    [injection Hrun as -> | discriminate Hrun].
  repeat split; simpl; try apply write_lookup.
  intros Hid. apply write_lookup. by intros ->.
Qed.

Lemma showError_run `{Runtime} id message w :
  showError id message w = (Normal tt, error_shown id message w).
Proof.
  unfold showError, error_shown, write. run.
  destruct (document w !! id) eqn:Hid; run.
  - reflexivity.
  - rewrite app_nil_r. f_equal. destruct w; simpl in *. f_equal.
    symmetry. apply map_eq. intros j. rewrite lookup_alter.
    case_decide; [subst; by rewrite Hid | done].
Qed.

Ltac world_steps :=
  unfold console_log, console_warn, console_error;
  repeat match goal with
    | |- world_step ?R (bind _ _) => apply (world_step_bind R); [|intros]
    | |- world_step ?R (try_catch _ _) => apply (world_step_try_catch R); [|intros]
    | |- world_step ?R (ret _) => apply (world_step_ret R)
    | |- world_step ?R (throw _) => apply (world_step_throw R)
    | |- world_step ?R (lift _) => apply (world_step_lift R)
    | |- world_step ?R (prop _ _) => apply (world_step_prop R)
    | |- world_step ?R (emit _ _ _) => apply (world_step_emit R)
    | |- world_step ?R (HealthcareAPIClient.fetchAPI _ _ _ _) =>
        apply (world_step_fetchAPI R)
    | |- world_step (writes_only _) (hideLoading _ _) =>
        apply world_step_hideLoading; unfold refreshTargets; simpl;
        repeat first [ apply list_elem_of_here | apply list_elem_of_further ]
    end.

Lemma refreshAllMetrics_step `{Runtime} net apiClient :
  world_step (writes_only refreshTargets)
    (MetricsRefreshManager.refreshAllMetrics net apiClient).
Proof.
  unfold MetricsRefreshManager.refreshAllMetrics,
    HealthcareAPIClient.getFHIRMetrics, HealthcareAPIClient.getHL7Metrics,
    HealthcareAPIClient.getEpicMetrics, HealthcareAPIClient.getAzureMetrics.
  world_steps.
Qed.


(** ** Start-up of the API client page *)

Lemma bind_showError `{Runtime} {B} id message (k : unit -> M B) w :
  bind (showError id message) k w = k tt (error_shown id message w).
Proof. unfold bind. by rewrite showError_run. Qed.

(** X12. When the health check fails at start-up, the listener still
    completes normally: the refresh manager is left as it was, not
    started, no metrics are fetched and no timer is registered, and
    each of the twelve metric widgets that is on the page shows the
    error markup around "Connection failed", every other element
    keeping its content. *)
Theorem startup_shows_errors_when_health_fails `{Runtime} (net : Network)
    (apiClient : HealthcareAPIClient.t) (manager : MetricsRefreshManager.t)
    (w : World) (e : Error) :
  fetch_outcome net apiClient HealthcareAPIClient.health noOptions = Throw e ->
  exists w',
    APIClientPage.onDOMContentLoaded net apiClient manager w = (Normal manager, w') /\
    timers w' = timers w /\ chartHeap w' = chartHeap w /\
    (forall id, id ∈ APIClientPage.errorElements ->
       document w' !! id
       = (fun el => mkElement (isCanvas el) (Str (errorMarkup "Connection failed")))
           <$> document w !! id) /\
    (forall id, id ∉ APIClientPage.errorElements ->
       document w' !! id = document w !! id).
Proof.
  intros Hhealth.
  unfold APIClientPage.onDOMContentLoaded.
  unfold console_log at 1. rewrite bind_emit. unfold try_catch.
  unfold HealthcareAPIClient.checkHealth.
  cycle_fetch. rewrite Hhealth.
  unfold console_error. rewrite bind_emit.
  unfold APIClientPage.errorElements. cbn [forEach].
  repeat (rewrite ?bind_assoc; rewrite bind_showError).
  eexists. split; [reflexivity|]. split; [reflexivity|]. split; [reflexivity|].
  set (items := (fun id => (id, Str (errorMarkup "Connection failed")))
                  <$> APIClientPage.errorElements).
  match goal with
  | |- context [document ?W !! _] =>
      change (document W) with (write_all items (document w))
  end.
  split.
  - intros id Hid. apply write_all_lookup_in.
    + by apply (bool_decide_unpack _).
    + apply list_elem_of_fmap. by exists id.
  - intros id Hid. apply write_all_lookup_notin.
    subst items. by rewrite <- list_fmap_compose, list_fmap_id.
Qed.

Lemma startup_shows_errors_when_health_fails_witness :
  exists w',
    APIClientPage.onDOMContentLoaded (H := Sample.runtime true)
      (Sample.failing HealthcareAPIClient.health) Sample.apiClient
      (MetricsRefreshManager.mk 30000 None) Sample.world
    = (Normal (MetricsRefreshManager.mk 30000 None), w') /\
    timers w' = ∅ /\
    document w' !! "fhirUptime"
    = Some (mkElement false (Str (errorMarkup "Connection failed"))).
Proof.
  destruct (startup_shows_errors_when_health_fails (H := Sample.runtime true)
              (Sample.failing HealthcareAPIClient.health) Sample.apiClient
              (MetricsRefreshManager.mk 30000 None) Sample.world NetworkError eq_refl)
    as (w' & Hrun & Htimers & _ & Hshown & _).
  exists w'. split; [exact Hrun|]. split; [exact Htimers|].
  apply (Hshown "fhirUptime").
  do 2 apply list_elem_of_further. apply list_elem_of_here.
Defined.



(** ** Leaving the page *)

Lemma destroyCharts_timers this w :
  exists w',
    HealthcareChartsManager.destroyCharts this w
      = (Normal (HealthcareChartsManager.mk ∅ None), w') /\
    document w' = document w /\
    timers w' = match HealthcareChartsManager.updateInterval this with
                | Some id => delete id (timers w)
                | None => timers w
                end.
Proof.
  unfold HealthcareChartsManager.destroyCharts.
  unfold console_log at 1. rewrite bind_emit.
  unfold bind at 1. rewrite forEach_destroy_run.
  unfold HealthcareChartsManager.stopAutoUpdate; simpl.
  destruct (HealthcareChartsManager.updateInterval this); by eexists.
Qed.

(** X14. The two unload listeners leave no timer of the page behind:
    after them both managers are idle, the charts registry is empty,
    the identifiers the managers held are no longer registered and
    every other timer is as it was; the page elements are untouched.
    On a page without the managers the listeners only write their
    console line. *)
Theorem unload_clears_the_page_timers (manager : MetricsRefreshManager.t)
    (chartsManager : HealthcareChartsManager.t) (w : World) :
  (exists w1 w2,
     APIClientPage.onBeforeUnload (Some manager) w
       = (Normal (Some (MetricsRefreshManager.mk
                          (MetricsRefreshManager.intervalMs manager) None)), w1) /\
     ChartsPage.onBeforeUnload (Some chartsManager) w1
       = (Normal (Some (HealthcareChartsManager.mk ∅ None)), w2) /\
     document w2 = document w /\
     forall id,
       timers w2 !! id
       = if bool_decide (MetricsRefreshManager.intervalId manager = Some id \/
                         HealthcareChartsManager.updateInterval chartsManager = Some id)
         then None else timers w !! id) /\
  APIClientPage.onBeforeUnload None w
    = (Normal None,
       add_console [mkLogEntry LevelLog "Healthcare API Client cleanup completed" []] w) /\
  ChartsPage.onBeforeUnload None w
    = (Normal None,
       add_console [mkLogEntry LevelLog "Charts module cleanup completed" []] w).
Proof.
  split; [|split; reflexivity].
  assert (Hstop : exists w1,
    APIClientPage.onBeforeUnload (Some manager) w
      = (Normal (Some (MetricsRefreshManager.mk
                         (MetricsRefreshManager.intervalMs manager) None)), w1) /\
    document w1 = document w /\
    timers w1 = match MetricsRefreshManager.intervalId manager with
                | Some id => delete id (timers w)
                | None => timers w
                end).
  { destruct manager as [ms [id|]]; by eexists. }
  destruct Hstop as (w1 & Hrun1 & Hdoc1 & Htimers1).
  destruct (destroyCharts_timers chartsManager w1) as (w2 & Hrun2 & Hdoc2 & Htimers2).
  exists w1. eexists. split; [exact Hrun1|].
  unfold ChartsPage.onBeforeUnload. unfold bind at 1. unfold bind at 1.
  rewrite Hrun2. split; [reflexivity|]. simpl.
  split; [by rewrite Hdoc2, Hdoc1|].
  intros id. rewrite Htimers2, Htimers1.
  destruct (MetricsRefreshManager.intervalId manager) as [id1|],
           (HealthcareChartsManager.updateInterval chartsManager) as [id2|];
    rewrite ?lookup_delete; repeat case_decide; case_bool_decide as Hid;
    subst; try done; intuition congruence.
Qed.

(** ** The buttons of the page *)

Lemma get_prop_field v k : nullish v = false -> get_prop v k = inr (field_of v k).
Proof. by destruct v. Qed.

Lemma get_prop_nullish v k : nullish v = true -> get_prop v k = inl TypeError.
Proof. by destruct v. Qed.

Lemma bind_ret_run {A B} (a : A) (k : A -> M B) w : bind (ret a) k w = k a w.
Proof. reflexivity. Qed.

Lemma showAzureMetrics_run `{Runtime} net apiClient w :
  exists r w',
    Actions.showAzureMetrics net apiClient w = (r, w') /\
    timers w' = timers w /\ nextTimer w' = nextTimer w /\ chartHeap w' = chartHeap w /\
    match fetched net apiClient Azure with
    | Throw e => r = Throw e /\ document w' = document w
    | Normal metrics =>
        if nullish metrics
        then r = Throw TypeError /\ document w' = document w
        else r = Normal tt /\ document w' = write_all (azureItems metrics) (document w)
    end.
Proof.
  unfold Actions.showAzureMetrics, HealthcareAPIClient.getAzureMetrics,
    fetched, endpoint.
  cycle_fetch.
  destruct (fetch_outcome net apiClient HealthcareAPIClient.azure_metrics noOptions)
    as [metrics|e].
  - destruct (nullish metrics) eqn:Hnull.
    + unfold prop. rewrite (get_prop_nullish _ _ Hnull).
      do 2 eexists. split; [reflexivity|]. by repeat split.
    + unfold prop. rewrite !(get_prop_field _ _ Hnull).
      cbn [lift]. repeat first [ rewrite bind_ret_run | rewrite bind_hideLoading ].
      do 2 eexists. split; [reflexivity|]. by repeat split.
  - do 2 eexists. split; [reflexivity|]. by repeat split.
Qed.

Ltac run_act :=
  cbv [act_bind act_ret try_catch_finally on_page alert get_buttonHTML
       set_buttonHTML set_disabled];
  cbn [target dialogs page buttonHTML disabled].


Lemma testEpicConnection_run net apiClient w :
  exists entries,
    HealthcareAPIClientTests.testEpicConnection net apiClient w
    = (fetch_outcome net apiClient HealthcareAPIClientTests.epic_test
         (mkFetchOptions (Some "POST") None),
       add_console entries w).
Proof.
  unfold HealthcareAPIClientTests.testEpicConnection. run.
  match goal with
  | |- context [HealthcareAPIClient.fetchAPI ?n ?a ?e ?o ?W] =>
      destruct (fetchAPI_run n a e o W) as [entries ->]
  end.
  destruct (fetch_outcome _ _ _ _); eexists; unfold add_console; simpl;
    rewrite <- app_assoc; reflexivity.
Qed.

Lemma testCernerConnection_run net apiClient w :
  exists entries,
    HealthcareAPIClientTests.testCernerConnection net apiClient w
    = (fetch_outcome net apiClient HealthcareAPIClientTests.cerner_test
         (mkFetchOptions (Some "POST") None),
       add_console entries w).
Proof.
  unfold HealthcareAPIClientTests.testCernerConnection. run.
  match goal with
  | |- context [HealthcareAPIClient.fetchAPI ?n ?a ?e ?o ?W] =>
      destruct (fetchAPI_run n a e o W) as [entries ->]
  end.
  destruct (fetch_outcome _ _ _ _); eexists; unfold add_console; simpl;
    rewrite <- app_assoc; reflexivity.
Qed.


Lemma shown_field_cases `{Runtime} v section field :
  Actions.shown_field v section field
  = if negb (nullish v) && negb (nullish (field_of v section))
    then inr (ToString (field_of (field_of v section) field))
    else inl TypeError.
Proof.
  unfold Actions.shown_field, and_then.
  destruct v; try reflexivity. simpl.
  by destruct (obj_get section props).
Qed.


(** ** The response time update, dataset by dataset *)

Lemma truthy_not_nullish v : truthy v = true -> nullish v = false.
Proof. by destruct v. Qed.

Lemma copyDatasetData_run h body items k w c :
  obj_get "datasets" body = Arr items ->
  chartHeap w !! h = Some c ->
  exists w',
    HealthcareChartsManager.copyDatasetData h (Obj body) k w = (Normal tt, w') /\
    chartHeap w' !! h
    = Some (with_datasets (alter (merge_dataset items k) k (datasets c)) c).
Proof.
  intros Hitems Hc. unfold HealthcareChartsManager.copyDatasetData.
  rewrite bind_prop_obj, Hitems. cbn [get_index lift]. rewrite bind_ret_run.
  destruct (truthy (default Undefined (items !! k))) eqn:Htruthy.
  - unfold prop. rewrite (get_prop_field _ _ (truthy_not_nullish _ Htruthy)).
    cbn [lift]. rewrite bind_ret_run.
    eexists. split; [reflexivity|]. simpl.
    rewrite list_lookup_alter_eq, Hc. simpl. unfold with_datasets. do 2 f_equal.
    apply list_alter_ext; [|done].
    intros d _. unfold merge_dataset. by rewrite Htruthy.
  - exists w. split; [reflexivity|]. rewrite Hc. f_equal.
    unfold with_datasets.
    assert (alter (merge_dataset items k) k (datasets c) = datasets c) as ->.
    { apply list_alter_id. intros d. unfold merge_dataset. by rewrite Htruthy. }
    by destruct c.
Qed.

Lemma forEach_copy_run h body items n : forall k w c,
  obj_get "datasets" body = Arr items ->
  chartHeap w !! h = Some c ->
  exists w',
    forEach (seq k n) (HealthcareChartsManager.copyDatasetData h (Obj body)) w
      = (Normal tt, w') /\
    chartHeap w' !! h = Some (with_datasets (copy_range items k n (datasets c)) c).
Proof.
  induction n as [|n IH]; intros k w c Hitems Hc; simpl.
  - exists w. split; [reflexivity|]. rewrite Hc. by destruct c.
  - destruct (copyDatasetData_run h body items k w c Hitems Hc) as (w1 & Hrun & Hc1).
    unfold bind at 1. rewrite Hrun.
    destruct (IH (S k) w1 _ Hitems Hc1) as (w' & Hrest & Hc').
    exists w'. split; [exact Hrest|]. by rewrite Hc'.
Qed.

Lemma copy_range_length items n : forall k ds,
  length (copy_range items k n ds) = length ds.
Proof.
  induction n as [|n IH]; intros k ds; simpl; [done|].
  by rewrite IH, length_alter.
Qed.

Lemma copy_range_lookup items n : forall k ds i,
  copy_range items k n ds !! i
  = (if decide (k <= i < k + n) then merge_dataset items i else id) <$> ds !! i.
Proof.
  induction n as [|n IH]; intros k ds i; simpl.
  - case_decide; [lia|]. by destruct (ds !! i).
  - rewrite IH, list_lookup_alter.
    destruct (decide (k = i)) as [->|Hne].
    + rewrite decide_False by lia. rewrite decide_True by lia.
      by destruct (ds !! i).
    + repeat case_decide; try lia; done.
Qed.

(** X18. An update applies the fetched response times dataset by
    dataset: the chart keeps its datasets, and dataset [i] takes the
    [data] of the fetched dataset of the same index when the answer
    has one, staying as it was when the answer has fewer datasets.
    Stated for a manager whose registry holds the response time chart
    only and an answer whose [datasets] is an array. *)
Theorem updateAllCharts_copies_dataset_by_dataset (net : Network)
    (apiClient : HealthcareAPIClient.t) (random : nat -> float)
    (this : HealthcareChartsManager.t) (w : World) (h : nat) (c : Chart)
    (body : list (string * Value)) (items : list Value) :
  HealthcareChartsManager.charts this = {["responseTime" := EChart h]} ->
  chartHeap w !! h = Some c ->
  fetch_outcome net apiClient HealthcareAPIClient.analytics_responseTimes noOptions
    = Normal (Obj body) ->
  obj_get "datasets" body = Arr items ->
  exists c',
    chartHeap (HealthcareChartsManager.updateAllCharts net apiClient random this w).2 !! h
      = Some c' /\
    length (datasets c') = length (datasets c) /\
    forall i d, datasets c !! i = Some d ->
                datasets c' !! i = Some (merge_dataset items i d).
Proof.
  intros Hreg Hc Hfetch Hitems.
  exists (with_datasets (copy_range items 0 (length (datasets c)) (datasets c)) c).
  split; [|split].
  - unfold HealthcareChartsManager.updateAllCharts, HealthcareChartsManager.chart_of,
      HealthcareAPIClient.getResponseTimeAnalytics.
    rewrite Hreg. rewrite lookup_singleton_eq, !lookup_singleton_ne by done.
    run.
    match goal with
    | |- context [HealthcareAPIClient.fetchAPI ?n ?a ?e ?o ?W] =>
        destruct (fetchAPI_run n a e o W) as [entries ->]
    end.
    rewrite Hfetch. unfold getChart. run. rewrite Hc.
    match goal with
    | |- context [forEach (seq 0 ?n) ?f ?W] =>
        destruct (forEach_copy_run h body items n 0 W c Hitems Hc) as (w' & -> & Hc')
    end.
    unfold Chart_update. run. exact Hc'.
  - simpl. apply copy_range_length.
  - intros i d Hd. simpl. rewrite copy_range_lookup, Hd. simpl.
    apply lookup_lt_Some in Hd. by rewrite decide_True by lia.
Qed.

Lemma updateAllCharts_copies_dataset_by_dataset_witness :
  let w1 := (HealthcareChartsManager.createResponseTimeChart (H := Sample.runtime true)
               Sample.healthy Sample.apiClient (HealthcareChartsManager.mk ∅ None)
               Sample.world).2 in
  let this1 := HealthcareChartsManager.mk {["responseTime" := EChart 0]} None in
  exists c c',
    chartHeap w1 !! 0 = Some c /\
    chartHeap (HealthcareChartsManager.updateAllCharts
                 Sample.healthy Sample.apiClient (fun _ => 0%float) this1 w1).2 !! 0
      = Some c' /\
    length (datasets c') = length (datasets c).
Proof.
  intros w1 this1. eexists.
  destruct (updateAllCharts_copies_dataset_by_dataset
              Sample.healthy Sample.apiClient (fun _ => 0%float) this1 w1 0 _ _ _
              eq_refl eq_refl eq_refl eq_refl)
    as (c' & Hafter & Hlength & _).
  exists c'. split; [reflexivity|]. split; [exact Hafter | exact Hlength].
Defined.

(** ** The datasets of the response time chart *)


(** ** From the answer to the chart *)

(** X20. When the message volume canvas is on the page and free, and
    the service answers with a body that is neither [null] nor
    [undefined], [createMessageVolumeChart] appends one live doughnut
    chart to the heap and registers its handle under "messageVolume":
    the chart's labels, its data and its colours are the [labels],
    [data] and [backgroundColor] of the answer as they came, in a
    single dataset. The page is not changed. *)
Theorem createMessageVolumeChart_charts_the_answer `{Runtime} (net : Network)
    (apiClient : HealthcareAPIClient.t) (this : HealthcareChartsManager.t)
    (w : World) (el : Element) (answer : Value) :
  document w !! "messageVolumeChart" = Some el ->
  isCanvas el = true ->
  fetch_outcome net apiClient HealthcareAPIClient.analytics_messageVolume noOptions
    = Normal answer ->
  nullish answer = false ->
  canvas_reuse_throws && existsb (live_on "messageVolumeChart") (chartHeap w) = false ->
  exists w',
    HealthcareChartsManager.createMessageVolumeChart net apiClient this w
    = (Normal (HealthcareChartsManager.mk
                 (<["messageVolume" := EChart (length (chartHeap w))]>
                    (HealthcareChartsManager.charts this))
                 (HealthcareChartsManager.updateInterval this)),
       w') /\
    document w' = document w /\
    chartHeap w'
    = (chartHeap w ++
       [mkChart "messageVolumeChart" doughnut (field_of answer "labels")
          [[("data", field_of answer "data");
            ("backgroundColor", field_of answer "backgroundColor");
            ("borderWidth", Num 4);
            ("borderColor", Str "#ffffff");
            ("hoverBorderWidth", Num 6);
            ("hoverBorderColor", Str "#ffffff")]]
          HealthcareChartsManager.messageVolume_options false])%list.
Proof.
  intros Hel Hcanvas Hfetch Hnull Hfree.
  unfold HealthcareChartsManager.createMessageVolumeChart,
    HealthcareAPIClient.getMessageVolumeAnalytics.
  run. rewrite Hel. run.
  match goal with
  | |- context [HealthcareAPIClient.fetchAPI ?n ?a ?e ?o ?W] =>
      destruct (fetchAPI_run n a e o W) as [entries ->]
  end.
  rewrite Hfetch. unfold getContext2d. rewrite Hcanvas. run.
  rewrite !(get_prop_field _ _ Hnull).
  unfold new_Chart; simpl. rewrite Hfree.
  eexists. split; [reflexivity|]. by split.
Qed.

Lemma createMessageVolumeChart_charts_the_answer_witness :
  exists w',
    HealthcareChartsManager.createMessageVolumeChart (H := Sample.runtime true)
      Sample.healthy Sample.apiClient (HealthcareChartsManager.mk ∅ None) Sample.world
    = (Normal (HealthcareChartsManager.mk {["messageVolume" := EChart 0]} None), w') /\
    document w' = document Sample.world /\
    chartHeap w' = [Sample.volumeChart].
Proof.
  apply (createMessageVolumeChart_charts_the_answer (H := Sample.runtime true)
           Sample.healthy Sample.apiClient (HealthcareChartsManager.mk ∅ None)
           Sample.world (mkElement true Undefined) Sample.messageVolumeBody);
    reflexivity.
Defined.
